(** * n8n-nodes-claudecode: the [ClaudeCode] node

    A shallow embedding of [nodes/ClaudeCode/ClaudeCode.node.ts]: the
    option object built for the SDK call, the three output formats, the
    translation of failures and the per-item loop of [execute], with the
    properties the specification states about them.

    Conventions.  JavaScript values are the type [value]; an object is an
    association list in insertion order, and reading a key that is not
    there gives [VUndefined].  Strings are sequences of code units below
    256.  Numbers are finite rationals (the records come from parsed JSON,
    the parameters from the host's number fields).  Console output is not
    modelled. *)

From Stdlib Require Import String Ascii List Bool ZArith QArith Lia DecimalString.
Import ListNotations.
Set Warnings "-register-all".
Local Open Scope string_scope.
Local Open Scope list_scope.

(** ** JavaScript values *)

Module JS.

Inductive value : Type :=
| VUndefined
| VNull
| VBool (b : bool)
| VNum (q : Q)
| VStr (s : string)
| VArr (l : list value)
| VObj (o : list (string * value)).

Definition obj : Type := list (string * value).

(** [o[k]] for an object literal: the first binding of [k], or [undefined]. *)
Fixpoint lookup (k : string) (o : obj) : value :=
  match o with
  | [] => VUndefined
  | (k', v) :: o' => if String.eqb k k' then v else lookup k o'
  end.

Fixpoint has_key (k : string) (o : obj) : bool :=
  match o with
  | [] => false
  | (k', _) :: o' => String.eqb k k' || has_key k o'
  end.

(** [o.k = v]: overwrite the binding in place, or append a new one. *)
Fixpoint set (k : string) (v : value) (o : obj) : obj :=
  match o with
  | [] => [(k, v)]
  | (k', v') :: o' =>
      if String.eqb k k' then (k', v) :: o' else (k', v') :: set k v o'
  end.

Definition keys (o : obj) : list string := map fst o.

Definition of_nat (n : nat) : value := VNum (inject_Z (Z.of_nat n)).

(** ToBoolean. *)
Definition truthy (v : value) : bool :=
  match v with
  | VUndefined | VNull => false
  | VBool b => b
  | VNum q => negb (Qnum q =? 0)%Z
  | VStr s => negb (String.eqb s "")
  | VArr _ | VObj _ => true
  end.

(** [a || b]. *)
Definition or (a b : value) : value := if truthy a then a else b.

Definition nullish (v : value) : bool :=
  match v with
  | VUndefined | VNull => true
  | _ => false
  end.

Definition is_undefined (v : value) : bool :=
  match v with
  | VUndefined => true
  | _ => false
  end.

(** [v === 's'] for a string literal [s]. *)
Definition str_eq (v : value) (s : string) : bool :=
  match v with
  | VStr s' => String.eqb s' s
  | _ => false
  end.

(** [v.k] for a named (non-index) key on a value that is not nullish:
    own properties of an object, [length] of arrays and strings, and
    [undefined] on every other primitive. *)
Definition prop (v : value) (k : string) : value :=
  match v with
  | VObj o => lookup k o
  | VArr l => if String.eqb k "length" then of_nat (List.length l) else VUndefined
  | VStr s => if String.eqb k "length" then of_nat (String.length s) else VUndefined
  | _ => VUndefined
  end.

(** [v?.k]. *)
Definition oprop (v : value) (k : string) : value :=
  if nullish v then VUndefined else prop v k.

(** [v[0]] on a value that is not nullish. *)
Definition at0 (v : value) : value :=
  match v with
  | VArr l => match l with [] => VUndefined | x :: _ => x end
  | VStr s => match s with EmptyString => VUndefined | String c _ => VStr (String c "") end
  | VObj o => lookup "0" o
  | _ => VUndefined
  end.

(** [v?.[0]]. *)
Definition oat0 (v : value) : value :=
  if nullish v then VUndefined else at0 v.

(** [s.includes(t)]. *)
Fixpoint includes (s t : string) : bool :=
  String.prefix t s ||
  match s with
  | EmptyString => false
  | String _ s' => includes s' t
  end.

(** White space of [String.prototype.trim] among the code units below 256:
    TAB, LF, VT, FF, CR, SP and NBSP. *)
Definition is_space (c : ascii) : bool :=
  let n := nat_of_ascii c in
  ((9 <=? n)%nat && (n <=? 13)%nat) || (n =? 32)%nat || (n =? 160)%nat.

Fixpoint trimStart (s : string) : string :=
  match s with
  | EmptyString => EmptyString
  | String c s' => if is_space c then trimStart s' else s
  end.

(** Drops the trailing white space: a character is kept when it is not a
    space or something is kept after it. *)
Fixpoint trimEnd (s : string) : string :=
  match s with
  | EmptyString => EmptyString
  | String c s' =>
      match trimEnd s' with
      | EmptyString => if is_space c then EmptyString else String c EmptyString
      | r => String c r
      end
  end.

Definition trim (s : string) : string := trimEnd (trimStart s).

Fixpoint join (sep : string) (l : list string) : string :=
  match l with
  | [] => ""
  | [x] => x
  | x :: l' => x ++ sep ++ join sep l'
  end.

Section Rendering.

(** Number::toString, which no property below depends on. *)
Variable number_to_string : Q -> string.

(** [String(v)]. An array renders its elements separated by commas, with
    [null] and [undefined] elements rendered empty. *)
Fixpoint String_ (v : value) : string :=
  match v with
  | VUndefined => "undefined"
  | VNull => "null"
  | VBool true => "true"
  | VBool false => "false"
  | VNum q => number_to_string q
  | VStr s => s
  | VArr l =>
      join "," ((fix elems (l : list value) : list string :=
                   match l with
                   | [] => []
                   | x :: l' => (if nullish x then "" else String_ x) :: elems l'
                   end) l)
  | VObj _ => "[object Object]"
  end.

End Rendering.

End JS.

Import JS.

(** ** Errors, records and the host's data *)

(** What a [catch] clause can receive: an [Error] instance (a
    [NodeOperationError] is one, with an item index and a description), or
    any other thrown value. *)
Record ErrorObject : Type := {
  name : string;
  message : string;
  stack : option string;
  itemIndex_of : option nat;
  description_of : option string
}.

Inductive thrown : Type :=
| ThrownError (e : ErrorObject)
| ThrownValue (v : value).

(** A response record of the SDK. [m.type] is read at its declared type;
    every other field is read through [any], here from [fields]. *)
Record SDKMessage : Type := {
  type : string;
  fields : obj
}.

Definition field (m : SDKMessage) (k : string) : value := lookup k (fields m).

(** The record as the JavaScript object it is. *)
Definition raw (m : SDKMessage) : value :=
  VObj (("type", VStr (type m)) :: fields m).

(** The asynchronous sequence returned by [query]: the records it yields,
    then normal completion or a thrown error (a fired cancellation makes
    the SDK throw an error named [AbortError]). *)
Record Stream : Type := {
  yields : list SDKMessage;
  raises : option thrown
}.

Record AdditionalOptions : Type := {
  systemPrompt : option string;
  requirePermissions : option bool;
  debug : option bool
}.

(** One input item: what [getNodeParameter] gives for each parameter, a
    value of the declared type (defaults applied by the host) or a thrown
    error. *)
Record Item : Type := {
  param_operation : thrown + string;
  param_prompt : thrown + string;
  param_model : thrown + string;
  param_maxTurns : thrown + Q;
  param_timeout : thrown + Q;
  param_projectPath : thrown + string;
  param_outputFormat : thrown + string;
  param_allowedTools : thrown + list string;
  param_settingSources : thrown + list string;
  param_additionalOptions : thrown + AdditionalOptions
}.

(** [interface QueryOptions]: the keys marked [?] are optional. *)
Record Options : Type := {
  o_maxTurns : Q;
  o_permissionMode : string;
  o_model : string;
  o_systemPrompt : option string;
  o_mcpServers : option value;
  o_allowedTools : option (list string);
  o_settingSources : option (list string);
  o_continue : option bool;
  o_cwd : option string
}.

Record QueryOptions : Type := {
  q_prompt : string;
  q_abortController : nat;
  q_options : Options
}.

Record INodeExecutionData : Type := {
  json : obj;
  pairedItem : nat
}.

(** A pending [setTimeout]: its id, its delay, and the controller its
    callback aborts. *)
Record Timer : Type := {
  timeoutId : nat;
  timeoutMs : Q;
  aborts : nat
}.

(** What [execute] mutates: [returnData], the loop body's [timeout]
    variable, the event loop's pending timers and the supply of fresh
    identities. *)
Record State : Type := {
  returnData : list INodeExecutionData;
  timeout : Q;
  timers : list Timer;
  fresh : nat
}.

(** Truthiness of an optional boolean option of the node. *)
Definition truthy_bool (b : option bool) : bool :=
  match b with
  | Some b => b
  | None => false
  end.

Definition nl : string := String (ascii_of_nat 10) EmptyString.

(** ** The node *)

Section ClaudeCode.

(** The engine's Number::toString and the stack trace it attaches to an
    error constructed with a given message. *)
Variable number_to_string : Q -> string.
Variable new_stack : string -> string.

(** The collaborators: the SDK's [query] and the host's [continueOnFail]. *)
Variable query : QueryOptions -> Stream.
Variable continueOnFail : bool.

(** [String(v)] with the engine's number rendering. *)
Definition ToString : value -> string := String_ number_to_string.

(** *** Query options *)

Definition blank (s : string) : bool :=
  String.eqb s "" || String.eqb (trim s) "".

(** Assignments to the optional keys of [queryOptions.options]. *)
Definition assign_systemPrompt (v : string) (o : Options) : Options :=
  {| o_maxTurns := o_maxTurns o; o_permissionMode := o_permissionMode o;
     o_model := o_model o; o_systemPrompt := Some v; o_mcpServers := o_mcpServers o;
     o_allowedTools := o_allowedTools o; o_settingSources := o_settingSources o;
     o_continue := o_continue o; o_cwd := o_cwd o |}.

Definition assign_cwd (v : string) (o : Options) : Options :=
  {| o_maxTurns := o_maxTurns o; o_permissionMode := o_permissionMode o;
     o_model := o_model o; o_systemPrompt := o_systemPrompt o;
     o_mcpServers := o_mcpServers o; o_allowedTools := o_allowedTools o;
     o_settingSources := o_settingSources o; o_continue := o_continue o;
     o_cwd := Some v |}.

Definition assign_allowedTools (v : list string) (o : Options) : Options :=
  {| o_maxTurns := o_maxTurns o; o_permissionMode := o_permissionMode o;
     o_model := o_model o; o_systemPrompt := o_systemPrompt o;
     o_mcpServers := o_mcpServers o; o_allowedTools := Some v;
     o_settingSources := o_settingSources o; o_continue := o_continue o;
     o_cwd := o_cwd o |}.

Definition assign_settingSources (v : list string) (o : Options) : Options :=
  {| o_maxTurns := o_maxTurns o; o_permissionMode := o_permissionMode o;
     o_model := o_model o; o_systemPrompt := o_systemPrompt o;
     o_mcpServers := o_mcpServers o; o_allowedTools := o_allowedTools o;
     o_settingSources := Some v; o_continue := o_continue o; o_cwd := o_cwd o |}.

Definition assign_continue (v : bool) (o : Options) : Options :=
  {| o_maxTurns := o_maxTurns o; o_permissionMode := o_permissionMode o;
     o_model := o_model o; o_systemPrompt := o_systemPrompt o;
     o_mcpServers := o_mcpServers o; o_allowedTools := o_allowedTools o;
     o_settingSources := o_settingSources o; o_continue := Some v; o_cwd := o_cwd o |}.

(** The object literal assigned to [queryOptions], then the conditional
    assignments to its [options], in the order of the source. *)
Definition queryOptions (operation prompt model : string) (maxTurns : Q)
    (projectPath : string) (allowedTools settingSources : list string)
    (additionalOptions : AdditionalOptions) (abortController : nat)
  : QueryOptions :=
  let options :=
    {| o_maxTurns := maxTurns;
       o_permissionMode :=
         if truthy_bool (requirePermissions additionalOptions)
         then "default" else "bypassPermissions";
       o_model := model;
       o_systemPrompt := None; o_mcpServers := None; o_allowedTools := None;
       o_settingSources := None; o_continue := None; o_cwd := None |} in
  let options :=
    match systemPrompt additionalOptions with
    | Some s => if negb (String.eqb s "") then assign_systemPrompt s options else options
    | None => options
    end in
  let options :=
    if negb (String.eqb projectPath "") && negb (String.eqb (trim projectPath) "")
    then assign_cwd (trim projectPath) options
    else options in
  let options :=
    if (0 <? List.length allowedTools)%nat
    then assign_allowedTools allowedTools options
    else options in
  let options :=
    if (0 <? List.length settingSources)%nat
    then assign_settingSources settingSources options
    else options in
  let options :=
    if String.eqb operation "continue"
    then assign_continue true options
    else options in
  {| q_prompt := prompt; q_abortController := abortController; q_options := options |}.

(** *** Output formats *)

(** [messages.find((m) => m.type === 'result')]. *)
Definition resultMessage (messages : list SDKMessage) : option SDKMessage :=
  find (fun m => String.eqb (type m) "result") messages.

(** [r?.k] for a record that may be [undefined]. *)
Definition ofield (r : option SDKMessage) (k : string) : value :=
  match r with
  | Some m => field m k
  | None => VUndefined
  end.

Definition text_response (messages : list SDKMessage) : obj :=
  let resultMessage := resultMessage messages in
  let response :=
    [ ("result",
       VStr (ToString (or (or (ofield resultMessage "result") (ofield resultMessage "error"))
                          (VStr "No result available"))));
      ("success",
       or (VBool (str_eq (ofield resultMessage "subtype") "success")) (VBool false)) ] in
  let response :=
    if negb (is_undefined (ofield resultMessage "duration_ms"))
    then set "duration_ms" (ofield resultMessage "duration_ms") response
    else response in
  let response :=
    if negb (is_undefined (ofield resultMessage "total_cost_usd"))
    then set "total_cost_usd" (ofield resultMessage "total_cost_usd") response
    else response in
  response.

Definition cleanMsg (msg : SDKMessage) : obj :=
  let cleanMsg := [ ("type", VStr (type msg)) ] in
  let cleanMsg :=
    if truthy (field msg "message") then set "message" (field msg "message") cleanMsg
    else cleanMsg in
  let cleanMsg :=
    if truthy (field msg "result") then set "result" (field msg "result") cleanMsg
    else cleanMsg in
  let cleanMsg :=
    if truthy (field msg "error") then set "error" (field msg "error") cleanMsg
    else cleanMsg in
  let cleanMsg :=
    if truthy (field msg "subtype") then set "subtype" (field msg "subtype") cleanMsg
    else cleanMsg in
  cleanMsg.

Definition cleanMessages (messages : list SDKMessage) : list value :=
  map (fun msg => VObj (cleanMsg msg)) messages.

Definition messages_response (messages : list SDKMessage) : obj :=
  [ ("messages", VArr (cleanMessages messages));
    ("messageCount", of_nat (List.length messages)) ].

Definition userMessages (messages : list SDKMessage) : list SDKMessage :=
  filter (fun m => String.eqb (type m) "user") messages.

Definition assistantMessages (messages : list SDKMessage) : list SDKMessage :=
  filter (fun m => String.eqb (type m) "assistant") messages.

Definition toolUses (messages : list SDKMessage) : list SDKMessage :=
  filter (fun m =>
            String.eqb (type m) "assistant" &&
            str_eq (oprop (oat0 (oprop (field m "message") "content")) "type") "tool_use")
         messages.

Definition systemInit (messages : list SDKMessage) : option SDKMessage :=
  find (fun m => String.eqb (type m) "system" && str_eq (field m "subtype") "init")
       messages.

Definition metrics (r : SDKMessage) : value :=
  VObj [ ("duration_ms", or (field r "duration_ms") (VNum 0));
         ("num_turns", or (field r "num_turns") (VNum 0));
         ("total_cost_usd", or (field r "total_cost_usd") (VNum 0));
         ("usage", or (field r "usage") (VObj [])) ].

Definition structured_response (debug : bool) (messages : list SDKMessage) : obj :=
  let systemInit := systemInit messages in
  let resultMessage := resultMessage messages in
  let response :=
    [ ("summary",
       VObj [ ("userMessageCount", of_nat (List.length (userMessages messages)));
              ("assistantMessageCount", of_nat (List.length (assistantMessages messages)));
              ("toolUseCount", of_nat (List.length (toolUses messages)));
              ("hasResult", VBool (match resultMessage with Some _ => true | None => false end));
              ("toolsAvailable", or (ofield systemInit "tools") (VArr [])) ]);
      ("success", VBool (str_eq (ofield resultMessage "subtype") "success")) ] in
  let response :=
    if truthy (ofield resultMessage "result")
    then set "result" (ofield resultMessage "result") response
    else if truthy (ofield resultMessage "error")
    then set "error" (ofield resultMessage "error") response
    else response in
  let response :=
    match resultMessage with
    | Some r =>
        if negb (is_undefined (field r "duration_ms"))
        then set "metrics" (metrics r) response
        else response
    | None => response
    end in
  let response :=
    if debug then set "messages" (VArr (map raw messages)) response else response in
  response.

(** The [if / else if / else if] on [outputFormat]: any other selector
    pushes nothing. *)
Definition format (outputFormat : string) (debug : bool) (messages : list SDKMessage)
  : option obj :=
  if String.eqb outputFormat "text" then Some (text_response messages)
  else if String.eqb outputFormat "messages" then Some (messages_response messages)
  else if String.eqb outputFormat "structured" then Some (structured_response debug messages)
  else None.

(** *** Failure translation *)

(** [error instanceof Error ? error.message : 'An unknown error occurred']. *)
Definition errorMessage (error : thrown) : string :=
  match error with
  | ThrownError e => message e
  | ThrownValue _ => "An unknown error occurred"
  end.

(** [error instanceof Error && error.name === 'AbortError']. *)
Definition isTimeout (error : thrown) : bool :=
  match error with
  | ThrownError e => String.eqb (name e) "AbortError"
  | ThrownValue _ => false
  end.

(** [error instanceof Error ? error.stack : String(error)]. *)
Definition errorDetails (error : thrown) : value :=
  match error with
  | ThrownError e => match stack e with Some s => VStr s | None => VUndefined end
  | ThrownValue v => VStr (ToString v)
  end.

Definition spawn_signature (errorMessage : string) : bool :=
  includes errorMessage "exited with code 1" || includes errorMessage "spawn"
  || includes errorMessage "ENOENT".

Definition auth_signature (errorMessage : string) : bool :=
  includes errorMessage "Authentication" || includes errorMessage "auth".

Definition permission_signature (errorMessage : string) : bool :=
  includes errorMessage "permission" || includes errorMessage "EACCES".

Definition timeout_message (timeout : Q) : string :=
  "Operation timed out after " ++ number_to_string timeout
  ++ " seconds. Consider increasing the timeout in Additional Options.".

Definition cli_message : string :=
  "Claude Code CLI is not properly installed or configured.".

Definition cli_description (errorMessage : string) : string :=
  errorMessage ++ nl ++ nl ++ "Troubleshooting:" ++ nl
  ++ "1. Install Claude CLI: npm install -g @anthropic-ai/claude-code" ++ nl
  ++ "2. Authenticate: claude auth" ++ nl
  ++ "3. Verify installation: claude --version" ++ nl
  ++ "4. Make sure Claude CLI is in the PATH for the n8n user".

Definition auth_message : string := "Claude Code authentication failed.".

Definition auth_description (errorMessage : string) : string :=
  errorMessage ++ nl ++ nl ++ "Run 'claude auth' on your server to authenticate.".

Definition permission_message : string :=
  "Permission denied accessing project path or Claude CLI.".

Definition permission_description (errorMessage : string) : string :=
  errorMessage ++ nl ++ nl ++ "Check:" ++ nl
  ++ "1. Project path exists and is accessible" ++ nl
  ++ "2. n8n user has read/write permissions" ++ nl
  ++ "3. Claude CLI is accessible to n8n user".

Definition generic_message (errorMessage : string) : string :=
  "Claude Code execution failed: " ++ errorMessage.

(** The pair [(userFriendlyMessage, description)] left by the chain of
    [if]s that ends the [catch] clause. *)
Definition userFriendlyMessage (timeout : Q) (error : thrown) : string * string :=
  let errorMessage := errorMessage error in
  if isTimeout error then (timeout_message timeout, errorMessage)
  else if spawn_signature errorMessage
  then (cli_message, cli_description errorMessage)
  else if auth_signature errorMessage
  then (auth_message, auth_description errorMessage)
  else if permission_signature errorMessage
  then (permission_message, permission_description errorMessage)
  else (generic_message errorMessage, errorMessage).

(** Modelled from the spec: the host library's [NodeOperationError] class,
    which is not part of the repository. The specification describes it as
    a structured error constructor taking a message, an item index and an
    optional long-form description, and the model is that: the error
    constructed by [new NodeOperationError(node, message, { itemIndex,
    description })] carries the three as they were given. What the library
    may do to the message afterwards (it can replace a message in which it
    recognises a common error code of the platform by a text of its own) is
    outside the model: [message] of such an error is the message the node
    constructed it with. The one message the node reads back from an error
    it constructed, that of the prompt check, holds no such code. *)
Definition NodeOperationError (msg : string) (itemIndex : nat)
    (description : option string) : thrown :=
  ThrownError {| name := "NodeOperationError"; message := msg;
                 stack := Some (new_stack msg);
                 itemIndex_of := Some itemIndex; description_of := description |}.

(** The record pushed when the host continues on failure. *)
Definition error_record (error : thrown) (itemIndex : nat) : INodeExecutionData :=
  {| json := [ ("error", VStr (errorMessage error));
               ("errorType", VStr (if isTimeout error then "timeout" else "execution_error"));
               ("errorDetails", errorDetails error);
               ("itemIndex", of_nat itemIndex);
               ("success", VBool false) ];
     pairedItem := itemIndex |}.

(** *** Statements with effects *)

(** A statement runs on the state and either completes with a value or
    throws; what it did to the state before throwing stays done. *)
Definition M (A : Type) : Type := State -> (thrown + A) * State.

Definition ret {A} (a : A) : M A := fun st => (inr a, st).

Definition throw {A} (e : thrown) : M A := fun st => (inl e, st).

Definition bind {A B} (c : M A) (k : A -> M B) : M B :=
  fun st =>
    match c st with
    | (inl e, st') => (inl e, st')
    | (inr a, st') => k a st'
    end.

Definition try_catch {A} (c : M A) (handler : thrown -> M A) : M A :=
  fun st =>
    match c st with
    | (inl e, st') => handler e st'
    | (inr a, st') => (inr a, st')
    end.

Notation "x <- c ;; k" := (bind c (fun x => k))
  (at level 61, c at next level, right associativity).
Notation "c ;;; k" := (bind c (fun _ => k))
  (at level 61, right associativity).

(** [this.getNodeParameter(...)]: the host's value, or its error. *)
Definition getNodeParameter {A} (p : thrown + A) : M A :=
  match p with
  | inl e => throw e
  | inr a => ret a
  end.

Definition assign_timeout (t : Q) : M unit :=
  fun st => (inr tt, {| returnData := returnData st; timeout := t;
                        timers := timers st; fresh := fresh st |}).

(** [new AbortController()] and [setTimeout(() => abortController.abort(),
    timeoutMs)]: returns the controller and the timer's id. *)
Definition setTimeout (ms : Q) : M (nat * nat) :=
  fun st =>
    let abortController := fresh st in
    let id := S (fresh st) in
    (inr (abortController, id),
     {| returnData := returnData st; timeout := timeout st;
        timers := timers st ++ [ {| timeoutId := id; timeoutMs := ms;
                                    aborts := abortController |} ];
        fresh := S (S (fresh st)) |}).

Definition clearTimeout (id : nat) : M unit :=
  fun st =>
    (inr tt,
     {| returnData := returnData st; timeout := timeout st;
        timers := filter (fun t => negb (timeoutId t =? id)%nat) (timers st);
        fresh := fresh st |}).

(** [returnData.push(d)]. *)
Definition push (d : INodeExecutionData) : M unit :=
  fun st =>
    (inr tt,
     {| returnData := returnData st ++ [d]; timeout := timeout st;
        timers := timers st; fresh := fresh st |}).

(** *** Draining the record sequence *)

(** The [TypeError] the engine throws on a bad property access or call;
    the messages are V8's. *)
Definition TypeError (msg : string) : thrown :=
  ThrownError {| name := "TypeError"; message := msg; stack := Some (new_stack msg);
                 itemIndex_of := None; description_of := None |}.

Definition cannot_read (v : value) (k : string) : thrown :=
  TypeError ("Cannot read properties of "
             ++ (match v with VNull => "null" | _ => "undefined" end)
             ++ " (reading '" ++ k ++ "')").

(** The "track progress" block of the loop body. It only logs, but under
    [debug] it reads [content.type] and calls [content.text.substring],
    which throw when [content] is nullish or [content.text] is no string.
    [None] when the block completes. *)
Definition track_progress (debug : bool) (message : SDKMessage) : option thrown :=
  if String.eqb (type message) "assistant"
     && truthy (oprop (field message "message") "content")
  then
    let content := at0 (prop (field message "message") "content") in
    if debug then
      if nullish content then Some (cannot_read content "type")
      else if str_eq (prop content "type") "text" then
        match prop content "text" with
        | VStr _ => None
        | VUndefined => Some (cannot_read VUndefined "substring")
        | VNull => Some (cannot_read VNull "substring")
        | _ => Some (TypeError "content.text.substring is not a function")
        end
      else None
    else None
  else None.

(** [for await (const message of query(queryOptions))]: each record is
    pushed onto [messages], then tracked; the sequence ends normally or by
    throwing. *)
Fixpoint consume (debug : bool) (pending : list SDKMessage) (ending : option thrown)
    (messages : list SDKMessage) : thrown + list SDKMessage :=
  match pending with
  | [] =>
      match ending with
      | Some e => inl e
      | None => inr messages
      end
  | message :: pending' =>
      let messages := messages ++ [message] in
      match track_progress debug message with
      | Some e => inl e
      | None => consume debug pending' ending messages
      end
  end.

Definition drain (debug : bool) (s : Stream) : M (list SDKMessage) :=
  match consume debug (yields s) (raises s) [] with
  | inl e => throw e
  | inr messages => ret messages
  end.

(** *** [execute] *)

(** The body of the outer [try]. *)
Definition attempt (itemIndex : nat) (item : Item) : M unit :=
  operation <- getNodeParameter (param_operation item) ;;
  prompt <- getNodeParameter (param_prompt item) ;;
  model <- getNodeParameter (param_model item) ;;
  maxTurns <- getNodeParameter (param_maxTurns item) ;;
  t <- getNodeParameter (param_timeout item) ;;
  assign_timeout t ;;;
  projectPath <- getNodeParameter (param_projectPath item) ;;
  outputFormat <- getNodeParameter (param_outputFormat item) ;;
  allowedTools <- getNodeParameter (param_allowedTools item) ;;
  settingSources <- getNodeParameter (param_settingSources item) ;;
  additionalOptions <- getNodeParameter (param_additionalOptions item) ;;
  ids <- setTimeout (t * 1000)%Q ;;
  let abortController := fst ids in
  let timeoutId := snd ids in
  if blank prompt
  then throw (NodeOperationError "Prompt is required and cannot be empty" itemIndex None)
  else
    let queryOptions :=
      queryOptions operation prompt model maxTurns projectPath allowedTools
                   settingSources additionalOptions abortController in
    let debug := truthy_bool (debug additionalOptions) in
    try_catch
      (messages <- drain debug (query queryOptions) ;;
       clearTimeout timeoutId ;;;
       match format outputFormat debug messages with
       | Some response => push {| json := response; pairedItem := itemIndex |}
       | None => ret tt
       end)
      (fun queryError => clearTimeout timeoutId ;;; throw queryError).

(** The outer [catch]: record the failure and continue, or raise the
    translated error. *)
Definition on_error (itemIndex : nat) (error : thrown) : M unit :=
  if continueOnFail then push (error_record error itemIndex)
  else
    fun st =>
      let translated := userFriendlyMessage (timeout st) error in
      throw (NodeOperationError (fst translated) itemIndex (Some (snd translated))) st.

(** One turn of the [for] loop. *)
Definition iteration (itemIndex : nat) (item : Item) : M unit :=
  assign_timeout 300 ;;;
  try_catch (attempt itemIndex item) (on_error itemIndex).

Fixpoint loop (items : list Item) (itemIndex : nat) : M unit :=
  match items with
  | [] => ret tt
  | item :: items' => iteration itemIndex item ;;; loop items' (S itemIndex)
  end.

Definition execute (items : list Item) : M (list (list INodeExecutionData)) :=
  fun st =>
    match loop items 0 {| returnData := []; timeout := timeout st;
                          timers := timers st; fresh := fresh st |} with
    | (inl e, st') => (inl e, st')
    | (inr _, st') => (inr [returnData st'], st')
    end.

End ClaudeCode.

(** ** Example data and the specification's notions *)

(** A rendering of numbers for the examples, which use whole numbers only:
    the decimal digits of the numerator. *)
Definition decimal (q : Q) : string :=
  DecimalString.NilZero.string_of_int (Z.to_int (Qnum q)).

(** A stack trace for the examples: the message itself. *)
Definition stack_of (msg : string) : string := msg.

Definition no_options : AdditionalOptions :=
  {| systemPrompt := None; requirePermissions := None; debug := None |}.

(** The record the specification calls terminal: the last record of type
    [result] in the sequence. *)
Definition last_result (messages : list SDKMessage) : option SDKMessage :=
  find (fun m => String.eqb (type m) "result") (rev messages).

Definition result_records (messages : list SDKMessage) : list SDKMessage :=
  filter (fun m => String.eqb (type m) "result") messages.

Definition failed_then_succeeded : list SDKMessage :=
  [ {| type := "result";
       fields := [("subtype", VStr "error_during_execution"); ("error", VStr "first")] |};
    {| type := "result";
       fields := [("subtype", VStr "success"); ("result", VStr "second")] |} ].

(** A sequence to apply the statements to: the scenario of the
    specification. *)
Definition scenario : list SDKMessage :=
  [ {| type := "system";
       fields := [("subtype", VStr "init"); ("tools", VArr [VStr "Bash"; VStr "Read"])] |};
    {| type := "assistant";
       fields := [("message",
                   VObj [("content", VArr [VObj [("type", VStr "text");
                                                 ("text", VStr "Listing")]])])] |};
    {| type := "result";
       fields := [("subtype", VStr "success"); ("result", VStr "done");
                  ("duration_ms", VNum 120)] |} ].


Definition succeeded : list SDKMessage :=
  [ {| type := "result";
       fields := [("subtype", VStr "success"); ("result", VStr "done")] |} ].

(** A run that succeeded with empty result text. *)
Definition succeeded_silently : list SDKMessage :=
  [ {| type := "result";
       fields := [("subtype", VStr "success"); ("result", VStr "");
                  ("error", VStr "fallback")] |} ].

(** Whether the record the formatters use has subtype [success]. *)
Definition reports_success (messages : list SDKMessage) : bool :=
  match resultMessage messages with
  | Some r => str_eq (field r "subtype") "success"
  | None => false
  end.

(** The fields a record summary of the messages format can carry besides
    [type]. *)
Definition summary_fields : list string := ["message"; "result"; "error"; "subtype"].

Definition is_summary_field (k : string) : bool := existsb (String.eqb k) summary_fields.

Definition silent_result : SDKMessage :=
  {| type := "result"; fields := [("subtype", VStr "success"); ("result", VStr "")] |}.

(** A terminal record with a duration and nothing else to measure. *)
Definition timed_result : SDKMessage :=
  {| type := "result";
     fields := [("subtype", VStr "success"); ("result", VStr "done");
                ("duration_ms", VNum 120)] |}.

(** A terminal record whose duration is [null]. *)
Definition untimed_result : SDKMessage :=
  {| type := "result";
     fields := [("subtype", VStr "success"); ("result", VStr "done");
                ("duration_ms", VNull)] |}.

(** A terminal record whose cost is [null]. *)
Definition unpriced_result : SDKMessage :=
  {| type := "result";
     fields := [("subtype", VStr "success"); ("result", VStr "done");
                ("duration_ms", VNum 120); ("total_cost_usd", VNull)] |}.

(** ** The failure categories of the specification *)

Inductive category : Type :=
| TimedOut
| CliNotInstalled
| AuthenticationFailed
| PermissionDenied
| ExecutionFailed.

(** The conditions in the order the specification gives them; the first
    that holds decides. *)
Definition rules : list ((thrown -> bool) * category) :=
  [ (isTimeout, TimedOut);
    (fun error => spawn_signature (errorMessage error), CliNotInstalled);
    (fun error => auth_signature (errorMessage error), AuthenticationFailed);
    (fun error => permission_signature (errorMessage error), PermissionDenied) ].

Definition categorize (error : thrown) : category :=
  match find (fun rule => fst rule error) rules with
  | Some rule => snd rule
  | None => ExecutionFailed
  end.

(** The message and the description of each category. *)
Definition diagnostic (number_to_string : Q -> string) (timeout : Q) (error : thrown)
    (c : category) : string * string :=
  let msg := errorMessage error in
  match c with
  | TimedOut => (timeout_message number_to_string timeout, msg)
  | CliNotInstalled => (cli_message, cli_description msg)
  | AuthenticationFailed => (auth_message, auth_description msg)
  | PermissionDenied => (permission_message, permission_description msg)
  | ExecutionFailed => (generic_message msg, msg)
  end.

Definition plain_error (name message : string) : thrown :=
  ThrownError {| name := name; message := message; stack := Some message;
                 itemIndex_of := None; description_of := None |}.

(** A cancellation: what was thrown is an [Error] whose name is
    [AbortError], whatever its message. *)
Definition cancellation (error : thrown) : Prop :=
  exists e, error = ThrownError e /\ name e = "AbortError".

(** The text contains one of the given signatures. *)
Definition mentions (text : string) (signatures : list string) : Prop :=
  exists s, In s signatures /\ includes text s = true.

(** The signatures of the specification: a process that could not be
    spawned (exit code 1, spawn, file not found), authentication, and
    permission (access denied included). *)
Definition spawn_texts : list string := ["exited with code 1"; "spawn"; "ENOENT"].

Definition authentication_texts : list string := ["Authentication"; "auth"].

Definition permission_texts : list string := ["permission"; "EACCES"].

(** ** Items whose parameters all resolve *)

Definition item_of (operation prompt model : string) (maxTurns timeout : Q)
    (projectPath outputFormat : string) (allowedTools settingSources : list string)
    (additionalOptions : AdditionalOptions) : Item :=
  {| param_operation := inr operation; param_prompt := inr prompt;
     param_model := inr model; param_maxTurns := inr maxTurns;
     param_timeout := inr timeout; param_projectPath := inr projectPath;
     param_outputFormat := inr outputFormat; param_allowedTools := inr allowedTools;
     param_settingSources := inr settingSources;
     param_additionalOptions := inr additionalOptions |}.

(** An item with the defaults of the node and the given prompt. *)
Definition default_item (prompt : string) : Item :=
  item_of "query" prompt "sonnet" 10 300 "" "structured" [] ["user"; "project"; "local"]
          no_options.

(** An SDK that answers every query with the scenario's records. *)
Definition scripted (_ : QueryOptions) : Stream :=
  {| yields := scenario; raises := None |}.

(** An SDK whose sequence is cancelled after the first record. *)
Definition cancelled (_ : QueryOptions) : Stream :=
  {| yields := firstn 1 scenario;
     raises := Some (plain_error "AbortError" "The operation was aborted") |}.

Definition idle : State :=
  {| returnData := []; timeout := 0; timers := []; fresh := 0 |}.

(** The timer armed for an item that starts in state [st]. *)
Definition armed (st : State) (timeout : Q) : Timer :=
  {| timeoutId := S (fresh st); timeoutMs := (timeout * 1000)%Q; aborts := fresh st |}.

Definition pending (id : nat) (st : State) : Prop := In id (map timeoutId (timers st)).

(** The state in which the outer [try] is entered: [timeout] is back at
    its default. *)
Definition started (st : State) : State := snd (assign_timeout 300 st).

(** The state after [returnData.push(d)]. *)
Definition recorded (d : INodeExecutionData) (st : State) : State :=
  {| returnData := returnData st ++ [d]; timeout := timeout st;
     timers := timers st; fresh := fresh st |}.

(** The error raised when the host does not continue on failure. *)
Definition raised (number_to_string : Q -> string) (new_stack : string -> string)
    (timeout : Q) (error : thrown) (itemIndex : nat) : thrown :=
  NodeOperationError new_stack
    (fst (userFriendlyMessage number_to_string timeout error)) itemIndex
    (Some (snd (userFriendlyMessage number_to_string timeout error))).
(** ** Notions for the further properties *)

(** Every code unit of the string is white space (the empty string
    included). *)
Fixpoint whitespace_only (s : string) : bool :=
  match s with
  | EmptyString => true
  | String c s' => is_space c && whitespace_only s'
  end.

Definition starts_with_space (s : string) : bool :=
  match s with
  | EmptyString => false
  | String c _ => is_space c
  end.

Fixpoint ends_with_space (s : string) : bool :=
  match s with
  | EmptyString => false
  | String c EmptyString => is_space c
  | String _ s' => ends_with_space s'
  end.

(** An assistant record whose content has no block at all. *)
Definition empty_turn : SDKMessage :=
  {| type := "assistant"; fields := [("message", VObj [("content", VArr [])])] |}.

(** The records that are neither user nor assistant records. *)
Definition otherMessages (messages : list SDKMessage) : list SDKMessage :=
  filter (fun m => negb (String.eqb (type m) "user")
                   && negb (String.eqb (type m) "assistant")) messages.

(** The [system] records with subtype [init]. *)
Definition is_init (m : SDKMessage) : bool :=
  String.eqb (type m) "system" && str_eq (field m "subtype") "init".

(** [summary.k] of a structured output. *)
Definition summary_of (out : obj) (k : string) : value :=
  oprop (lookup "summary" out) k.

(** A binding that is made only under a condition. *)
Definition optional (present : bool) (k : string) (v : value) : obj :=
  if present then [(k, v)] else [].

(** An assistant record whose first block is text and whose second block
    uses a tool. *)
Definition text_then_tool : SDKMessage :=
  {| type := "assistant";
     fields := [("message",
                 VObj [("content",
                        VArr [VObj [("type", VStr "text"); ("text", VStr "Let me look")];
                              VObj [("type", VStr "tool_use"); ("name", VStr "Bash")]])])] |}.

Definition tool_first : SDKMessage :=
  {| type := "assistant";
     fields := [("message",
                 VObj [("content",
                        VArr [VObj [("type", VStr "tool_use"); ("name", VStr "Bash")]])])] |}.

(** The output formats the node knows. *)
Definition known_format (outputFormat : string) : bool :=
  String.eqb outputFormat "text" || String.eqb outputFormat "messages"
  || String.eqb outputFormat "structured".

(** The item asks for a known format, if its format resolves at all. *)
Definition asks_known_format (item : Item) : bool :=
  match param_outputFormat item with
  | inr f => known_format f
  | inl _ => true
  end.

(** The state after an item with timeout [t] armed its timer in [st] and
    cleared it again. *)
Definition cleared (st : State) (t : Q) : State :=
  {| returnData := returnData st; timeout := t;
     timers := filter (fun x => negb (timeoutId x =? S (fresh st))%nat)
                      (timers st ++ [armed st t]);
     fresh := S (S (fresh st)) |}.

(** The error thrown by the prompt check. *)
Definition prompt_required (new_stack : string -> string) (itemIndex : nat) : thrown :=
  NodeOperationError new_stack "Prompt is required and cannot be empty" itemIndex None.

(** Every parameter of the item resolves. *)
Definition resolves (item : Item) : bool :=
  match param_operation item, param_prompt item, param_model item,
        param_maxTurns item, param_timeout item, param_projectPath item,
        param_outputFormat item, param_allowedTools item,
        param_settingSources item, param_additionalOptions item with
  | inr _, inr _, inr _, inr _, inr _, inr _, inr _, inr _, inr _, inr _ => true
  | _, _, _, _, _, _, _, _, _, _ => false
  end.

(** The item gets as far as the prompt check and fails it. *)
Definition fails_prompt_check (item : Item) : bool :=
  resolves item &&
  match param_prompt item with
  | inr p => blank p
  | inl _ => false
  end.

Definition timeout_of (item : Item) : Q :=
  match param_timeout item with
  | inr t => t
  | inl _ => 300
  end.

(** No pending timer has an identity that is yet to be given out. *)
Definition fresh_ids (st : State) : Prop :=
  forall x, In x (timers st) -> (timeoutId x <= fresh st)%nat.

(** An SDK that must not be asked. *)
Definition unreachable (_ : QueryOptions) : Stream :=
  {| yields := []; raises := Some (ThrownValue (VStr "the SDK was called")) |}.

(** ** Objects: reading after writing *)

Lemma lookup_set (k k' : string) (v : value) (o : obj) :
  lookup k (set k' v o) = if String.eqb k k' then v else lookup k o.
Proof.
  induction o as [|[k0 v0] o IH]; simpl.
  - reflexivity.
  - destruct (String.eqb_spec k' k0) as [->|Hk']; simpl.
    + destruct (String.eqb k k0); reflexivity.
    + rewrite IH. destruct (String.eqb_spec k k0) as [->|Hk].
      * destruct (String.eqb_spec k0 k'); [congruence|reflexivity].
      * reflexivity.
Qed.

Lemma has_key_set (k k' : string) (v : value) (o : obj) :
  has_key k (set k' v o) = String.eqb k k' || has_key k o.
Proof.
  induction o as [|[k0 v0] o IH]; simpl.
  - now rewrite orb_false_r.
  - destruct (String.eqb_spec k' k0) as [->|Hk']; simpl.
    + destruct (String.eqb k k0); reflexivity.
    + rewrite IH. destruct (String.eqb k k0), (String.eqb k k'); reflexivity.
Qed.

Lemma has_key_false_lookup (k : string) (o : obj) :
  has_key k o = false -> lookup k o = VUndefined.
Proof.
  induction o as [|[k0 v0] o IH]; simpl; [reflexivity|].
  destruct (String.eqb k k0); simpl; [discriminate|exact IH].
Qed.

(** ** Query options *)

(** The selection reaches [options.settingSources] only when it is not
    empty; no other assignment touches that key. *)
Lemma queryOptions_settingSources operation prompt model maxTurns projectPath
    allowedTools settingSources additionalOptions abortController :
  o_settingSources
    (q_options (queryOptions operation prompt model maxTurns projectPath allowedTools
                             settingSources additionalOptions abortController))
  = match settingSources with
    | [] => None
    | _ :: _ => Some settingSources
    end.
Proof.
  unfold queryOptions; simpl q_options.
  destruct (String.eqb operation "continue"); simpl o_settingSources;
    destruct settingSources as [|s l]; simpl; try reflexivity;
    destruct (0 <? List.length allowedTools)%nat; simpl;
    destruct (negb _ && negb _); simpl;
    destruct (systemPrompt additionalOptions) as [sp|]; try reflexivity;
    destruct (negb (String.eqb sp "")); reflexivity.
Qed.

(** C1, as stated, fails: with an empty selection the option object has
    no [settingSources] key at all, so it does not hold an empty list. *)
Lemma C1_empty_selection_is_omitted :
  let options :=
    q_options (queryOptions "query" "List files" "sonnet" 10 "" [] [] no_options 0) in
  o_settingSources options = None /\ o_settingSources options <> Some [].
Proof.
  split; [reflexivity|discriminate].
Qed.

(** C1 (amended): for every item, the option object passed to the SDK has
    a [settingSources] key exactly when the selection is not empty, and the
    key then holds the selection; an empty selection leaves the key out, as
    for every other optional key the node does not set. *)
Theorem C1_settingSources_only_when_selected operation prompt model maxTurns
    projectPath allowedTools settingSources additionalOptions abortController :
  let options :=
    q_options (queryOptions operation prompt model maxTurns projectPath allowedTools
                            settingSources additionalOptions abortController) in
  (settingSources = [] <-> o_settingSources options = None) /\
  (settingSources <> [] <-> o_settingSources options = Some settingSources) /\
  o_settingSources options <> Some [].
Proof.
  cbv zeta. rewrite queryOptions_settingSources.
  destruct settingSources as [|s l]; repeat split; intros; congruence.
Qed.

(** ** The terminal record *)

Lemma resultMessage_head (messages : list SDKMessage) :
  resultMessage messages = hd_error (result_records messages).
Proof.
  unfold resultMessage, result_records.
  induction messages as [|m l IH]; simpl; [reflexivity|].
  destruct (String.eqb (type m) "result"); [reflexivity|exact IH].
Qed.

Lemma find_app {A} (f : A -> bool) (l1 l2 : list A) :
  find f (l1 ++ l2) = match find f l1 with Some x => Some x | None => find f l2 end.
Proof.
  induction l1 as [|a l1 IH]; simpl; [reflexivity|].
  destruct (f a); [reflexivity|exact IH].
Qed.

Lemma last_result_last (messages : list SDKMessage) :
  last_result messages = hd_error (rev (result_records messages)).
Proof.
  unfold last_result, result_records.
  induction messages as [|m l IH]; simpl; [reflexivity|].
  rewrite find_app, IH. simpl.
  destruct (String.eqb (type m) "result") eqn:E; simpl.
  - destruct (rev (filter _ l)); reflexivity.
  - destruct (rev (filter _ l)); reflexivity.
Qed.

(** C5, as stated, fails: with two [result] records the formatters use the
    first one, not the last. *)
Lemma C5_first_result_not_last :
  resultMessage failed_then_succeeded <> last_result failed_then_succeeded /\
  lookup "result" (text_response decimal failed_then_succeeded) = VStr "first" /\
  lookup "success" (structured_response false failed_then_succeeded) = VBool false /\
  lookup "error" (structured_response false failed_then_succeeded) = VStr "first".
Proof.
  repeat split; try reflexivity. discriminate.
Qed.

(** C5 (amended): when the sequence contains a [result] record, the record
    the formatters use is the first one: it has type [result] and no record
    before it has; when the sequence contains exactly one [result] record,
    it is that record (which is then also the last). *)
Theorem C5_terminal_record_is_first_result (messages : list SDKMessage) :
  ((exists m, In m messages /\ type m = "result") ->
   exists before r after,
     messages = before ++ r :: after /\ type r = "result" /\
     (forall m, In m before -> type m <> "result") /\
     resultMessage messages = Some r) /\
  (forall r, result_records messages = [r] ->
             resultMessage messages = Some r /\ last_result messages = Some r).
Proof.
  split.
  - intros (m & Hin & Hm).
    induction messages as [|a l IH]; [contradiction|].
    destruct (String.eqb_spec (type a) "result") as [Ha|Ha].
    + exists [], a, l. unfold resultMessage; simpl.
      rewrite Ha; simpl. repeat split; auto.
    + destruct Hin as [->|Hin]; [congruence|].
      destruct (IH Hin) as (before & r & after & -> & Hr & Hb & Hf).
      exists (a :: before), r, after. repeat split; auto.
      * intros x [<-|Hx]; auto.
      * unfold resultMessage in *; simpl.
        destruct (String.eqb_spec (type a) "result"); [congruence|exact Hf].
  - intros r Hr. rewrite resultMessage_head, last_result_last, Hr. split; reflexivity.
Qed.

Lemma C5_terminal_record_witness :
  (exists before r after,
     scenario = before ++ r :: after /\ type r = "result" /\
     (forall m, In m before -> type m <> "result") /\
     resultMessage scenario = Some r) /\
  (exists r, resultMessage scenario = Some r /\ last_result scenario = Some r).
Proof.
  split.
  - apply (proj1 (C5_terminal_record_is_first_result scenario)).
    exists timed_result.
    split; [right; right; left; reflexivity|reflexivity].
  - eexists. apply (proj2 (C5_terminal_record_is_first_result scenario)). reflexivity.
Defined.

(** ** The scenarios of the specification *)

Example scenario_text :
  text_response decimal scenario
  = [("result", VStr "done"); ("success", VBool true); ("duration_ms", VNum 120)].
Proof. reflexivity. Qed.

Example scenario_structured :
  structured_response false scenario
  = [("summary",
      VObj [("userMessageCount", of_nat 0); ("assistantMessageCount", of_nat 1);
            ("toolUseCount", of_nat 0); ("hasResult", VBool true);
            ("toolsAvailable", VArr [VStr "Bash"; VStr "Read"])]);
     ("success", VBool true);
     ("result", VStr "done");
     ("metrics",
      VObj [("duration_ms", VNum 120); ("num_turns", VNum 0);
            ("total_cost_usd", VNum 0); ("usage", VObj [])])].
Proof. reflexivity. Qed.

Example aborted_stream_text :
  text_response decimal (firstn 2 scenario)
  = [("result", VStr "No result available"); ("success", VBool false)].
Proof. reflexivity. Qed.

Example aborted_stream_structured :
  let out := structured_response false (firstn 2 scenario) in
  oprop (lookup "summary" out) "hasResult" = VBool false /\
  has_key "metrics" out = false /\ has_key "result" out = false /\
  has_key "error" out = false.
Proof. repeat split. Qed.

(** ** The text and structured formats *)

Lemma text_response_success number_to_string (messages : list SDKMessage) :
  lookup "success" (text_response number_to_string messages)
  = VBool (reports_success messages).
Proof.
  unfold text_response, reports_success.
  destruct (resultMessage messages) as [r|]; simpl ofield.
  - destruct (is_undefined (field r "duration_ms")),
      (is_undefined (field r "total_cost_usd")); simpl negb; cbv iota;
      rewrite ?lookup_set; simpl;
      destruct (str_eq (field r "subtype") "success"); reflexivity.
  - reflexivity.
Qed.

Lemma text_response_result number_to_string (messages : list SDKMessage) :
  lookup "result" (text_response number_to_string messages)
  = VStr (ToString number_to_string
            (or (or (ofield (resultMessage messages) "result")
                    (ofield (resultMessage messages) "error"))
                (VStr "No result available"))).
Proof.
  unfold text_response.
  destruct (is_undefined (ofield (resultMessage messages) "duration_ms")),
    (is_undefined (ofield (resultMessage messages) "total_cost_usd"));
    simpl negb; cbv iota; rewrite ?lookup_set; reflexivity.
Qed.

Lemma structured_response_success (debug : bool) (messages : list SDKMessage) :
  lookup "success" (structured_response debug messages)
  = VBool (reports_success messages).
Proof.
  unfold structured_response, reports_success.
  destruct (resultMessage messages) as [r|]; simpl ofield; cbv zeta;
    repeat match goal with
           | |- context [if ?c then _ else _] =>
               lazymatch c with
               | String.eqb _ _ => fail
               | _ => destruct c
               end
           end;
    rewrite ?lookup_set; reflexivity.
Qed.

(** C3, as stated, fails twice: the messages format has no [success] key
    at all, and a sequence that ends in a successful [result] record after
    an earlier failed one is reported as failed. *)
Lemma C3_messages_format_has_no_success :
  has_key "success" (messages_response succeeded) = false /\
  lookup "success" (messages_response succeeded) <> VBool true /\
  (exists r, last_result failed_then_succeeded = Some r /\
             field r "subtype" = VStr "success") /\
  lookup "success" (text_response decimal failed_then_succeeded) = VBool false /\
  lookup "success" (structured_response false failed_then_succeeded) = VBool false.
Proof.
  repeat split; try reflexivity; try discriminate.
  eexists; split; reflexivity.
Qed.

(** C3 (amended): the text and the structured format report [success =
    true] exactly when the sequence has a [result] record and the first one
    has subtype [success]; with any other subtype, or without a [result]
    record, they report [success = false]. The messages format reports no
    [success] at all. *)
Theorem C3_success_from_first_result number_to_string (debug : bool)
    (messages : list SDKMessage) :
  lookup "success" (text_response number_to_string messages)
    = VBool (reports_success messages) /\
  lookup "success" (structured_response debug messages)
    = VBool (reports_success messages) /\
  has_key "success" (messages_response messages) = false /\
  (reports_success messages = true <->
   exists r, resultMessage messages = Some r /\ field r "subtype" = VStr "success").
Proof.
  split; [apply text_response_success|].
  split; [apply structured_response_success|].
  split; [reflexivity|].
  unfold reports_success. destruct (resultMessage messages) as [r|].
  - split.
    + intros H. exists r. split; [reflexivity|].
      destruct (field r "subtype"); simpl in H; try discriminate.
      apply String.eqb_eq in H. now subst.
    + intros (r' & [= <-] & ->). reflexivity.
  - split; [discriminate|]. intros (r' & [=] & _).
Qed.

(** C4, as stated, fails: an empty result text is present on the record,
    yet the output falls back to the [error] field. *)
Lemma C4_empty_result_text_falls_back :
  (exists r, resultMessage succeeded_silently = Some r /\
             has_key "result" (fields r) = true /\ field r "result" = VStr "") /\
  lookup "result" (text_response decimal succeeded_silently) = VStr "fallback" /\
  lookup "result" (text_response decimal succeeded_silently) <> VStr "".
Proof.
  repeat split; try reflexivity; try discriminate.
  eexists; repeat split; reflexivity.
Qed.

(** C4 (amended): the text format's [result] is the string conversion of
    the first truthy value among the [result] field of the first [result]
    record, its [error] field, and the literal "No result available". So a
    non-empty result text is given as it is; failing a truthy [result], a
    non-empty error text is; and the literal is given when both are absent
    or falsy, in particular when no [result] record was consumed. *)
Theorem C4_text_result_fallback number_to_string (messages : list SDKMessage) :
  let r := resultMessage messages in
  let out := lookup "result" (text_response number_to_string messages) in
  (truthy (ofield r "result") = true ->
   out = VStr (ToString number_to_string (ofield r "result"))) /\
  (forall s, ofield r "result" = VStr s -> s <> "" -> out = VStr s) /\
  (truthy (ofield r "result") = false -> truthy (ofield r "error") = true ->
   out = VStr (ToString number_to_string (ofield r "error"))) /\
  (truthy (ofield r "result") = false ->
   forall s, ofield r "error" = VStr s -> s <> "" -> out = VStr s) /\
  (truthy (ofield r "result") = false -> truthy (ofield r "error") = false ->
   out = VStr "No result available") /\
  (r = None -> out = VStr "No result available").
Proof.
  cbv zeta. rewrite text_response_result. unfold or.
  assert (Hs : forall s, s <> "" -> truthy (VStr s) = true).
  { intros s Hs. simpl. now destruct (String.eqb_spec s ""). }
  repeat split.
  - intros H. rewrite H; cbv iota. rewrite H. reflexivity.
  - intros s E Hne. rewrite E, (Hs s Hne); cbv iota. rewrite (Hs s Hne). reflexivity.
  - intros H1 H2. rewrite H1; cbv iota. rewrite H2. reflexivity.
  - intros H1 s E Hne. rewrite H1; cbv iota. rewrite E, (Hs s Hne). reflexivity.
  - intros H1 H2. rewrite H1; cbv iota. rewrite H2. reflexivity.
  - intros H. rewrite H. reflexivity.
Qed.

Lemma C4_text_result_fallback_witness :
  lookup "result" (text_response decimal scenario) = VStr "done" /\
  lookup "result" (text_response decimal []) = VStr "No result available".
Proof.
  split.
  - apply (proj1 (proj2 (C4_text_result_fallback decimal scenario)) "done").
    + reflexivity.
    + discriminate.
  - apply (proj2 (proj2 (proj2 (proj2 (proj2 (C4_text_result_fallback decimal [])))))).
    reflexivity.
Defined.

(** ** The messages format *)

Ltac split_key k c :=
  destruct (String.eqb_spec k c) as [->|?].

Lemma cleanMsg_key (m : SDKMessage) (k : string) :
  has_key k (cleanMsg m)
  = String.eqb k "type" || (is_summary_field k && truthy (field m k)) /\
  lookup k (cleanMsg m)
  = if String.eqb k "type" then VStr (type m)
    else if is_summary_field k && truthy (field m k) then field m k
    else VUndefined.
Proof.
  unfold cleanMsg, is_summary_field, summary_fields.
  split_key k "type"; [|split_key k "message"; [|split_key k "result";
    [|split_key k "error"; [|split_key k "subtype"]]]];
    destruct (truthy (field m "message")) eqn:E1, (truthy (field m "result")) eqn:E2,
      (truthy (field m "error")) eqn:E3, (truthy (field m "subtype")) eqn:E4;
    rewrite ?has_key_set, ?lookup_set; simpl;
    repeat match goal with
           | H : ?a <> ?b |- _ => apply String.eqb_neq in H; rewrite ?H
           end;
    simpl; rewrite ?E1, ?E2, ?E3, ?E4; split; reflexivity.
Qed.

Lemma cleanMessages_nth (messages : list SDKMessage) (i : nat) :
  nth_error (cleanMessages messages) i
  = option_map (fun m => VObj (cleanMsg m)) (nth_error messages i).
Proof.
  unfold cleanMessages. apply nth_error_map.
Qed.

(** C6, as stated, fails: a field that is present but falsy, such as an
    empty result text, is not retained. *)
Lemma C6_present_but_empty_field_is_dropped :
  has_key "result" (fields silent_result) = true /\
  field silent_result "result" = VStr "" /\
  lookup "messages" (messages_response [silent_result])
  = VArr [VObj [("type", VStr "result"); ("subtype", VStr "success")]] /\
  has_key "result" (cleanMsg silent_result) = false.
Proof.
  repeat split; reflexivity.
Qed.

(** C6 (amended): [messageCount] is the number of records consumed; the
    [messages] array has one summary per record, in emission order; and
    each summary holds the record's [type] plus exactly those of [message],
    [result], [error], [subtype] whose value on the record is truthy, each
    with the record's value, and no other key. A field that is present but
    falsy (empty text, [0], [false], [null]) is left out. *)
Theorem C6_messages_format (messages : list SDKMessage) :
  lookup "messageCount" (messages_response messages) = of_nat (List.length messages) /\
  lookup "messages" (messages_response messages) = VArr (cleanMessages messages) /\
  List.length (cleanMessages messages) = List.length messages /\
  (forall i, nth_error (cleanMessages messages) i
             = option_map (fun m => VObj (cleanMsg m)) (nth_error messages i)) /\
  (forall m k,
     has_key k (cleanMsg m)
     = String.eqb k "type" || (is_summary_field k && truthy (field m k)) /\
     lookup k (cleanMsg m)
     = if String.eqb k "type" then VStr (type m)
       else if is_summary_field k && truthy (field m k) then field m k
       else VUndefined).
Proof.
  repeat split; try reflexivity.
  - unfold cleanMessages. apply length_map.
  - apply cleanMessages_nth.
  - apply cleanMsg_key.
  - apply cleanMsg_key.
Qed.

(** ** The metrics block *)

Lemma structured_response_metrics (debug : bool) (messages : list SDKMessage) :
  match resultMessage messages with
  | Some r =>
      if is_undefined (field r "duration_ms")
      then has_key "metrics" (structured_response debug messages) = false
      else has_key "metrics" (structured_response debug messages) = true /\
           lookup "metrics" (structured_response debug messages) = metrics r
  | None => has_key "metrics" (structured_response debug messages) = false
  end.
Proof.
  unfold structured_response.
  destruct (resultMessage messages) as [r|]; simpl ofield; cbv zeta;
    [destruct (is_undefined (field r "duration_ms")); simpl negb|];
    repeat match goal with
           | |- context [if ?c then _ else _] =>
               lazymatch c with
               | String.eqb _ _ => fail
               | _ => destruct c
               end
           end;
    rewrite ?has_key_set, ?lookup_set; try split; reflexivity.
Qed.

(** C10: whenever the structured output has a [metrics] block, the record
    the formatter uses has a defined [duration_ms], and the block has the
    four keys [duration_ms], [num_turns], [total_cost_usd] and [usage],
    each holding the record's value when that is truthy and otherwise the
    default, [0] for the numbers and the empty object for [usage]. *)
Theorem C10_metrics_block_is_complete (debug : bool) (messages : list SDKMessage) :
  has_key "metrics" (structured_response debug messages) = true ->
  exists r block,
    resultMessage messages = Some r /\
    is_undefined (field r "duration_ms") = false /\
    lookup "metrics" (structured_response debug messages) = VObj block /\
    keys block = ["duration_ms"; "num_turns"; "total_cost_usd"; "usage"] /\
    (forall k, In k ["duration_ms"; "num_turns"; "total_cost_usd"] ->
               lookup k block = if truthy (field r k) then field r k else VNum 0) /\
    lookup "usage" block = if truthy (field r "usage") then field r "usage" else VObj [].
Proof.
  intros H. pose proof (structured_response_metrics debug messages) as M.
  destruct (resultMessage messages) as [r|]; [|congruence].
  destruct (is_undefined (field r "duration_ms")) eqn:E; [congruence|].
  destruct M as [_ M]. exists r. eexists. split; [reflexivity|]. split; [exact E|].
  split; [exact M|]. split; [reflexivity|]. split; [|reflexivity].
  intros k [<-|[<-|[<-|[]]]]; reflexivity.
Qed.

Lemma C10_metrics_block_witness :
  exists block,
    lookup "metrics" (structured_response false [timed_result]) = VObj block /\
    lookup "num_turns" block = VNum 0 /\
    lookup "total_cost_usd" block = VNum 0 /\
    lookup "usage" block = VObj [].
Proof.
  destruct (C10_metrics_block_is_complete false [timed_result] eq_refl)
    as (r & block & Hr & _ & Hb & _ & Hn & Hu).
  injection Hr as <-.
  exists block. split; [exact Hb|]. split; [|split].
  - apply (Hn "num_turns"). simpl; auto.
  - apply (Hn "total_cost_usd"). simpl; auto.
  - exact Hu.
Defined.

(** ** Null and undefined values in the output *)

Lemma truthy_not_nullish (v : value) : truthy v = true -> nullish v = false.
Proof. destruct v; simpl; congruence. Qed.

(** The messages format does what its comment says: a key of a record
    summary never holds [null] or [undefined]. *)
Lemma cleanMsg_values_defined (m : SDKMessage) (k : string) :
  has_key k (cleanMsg m) = true -> nullish (lookup k (cleanMsg m)) = false.
Proof.
  destruct (cleanMsg_key m k) as [-> ->].
  destruct (String.eqb k "type"); [reflexivity|].
  destruct (is_summary_field k); [|discriminate].
  cbn [orb andb]. destruct (truthy (field m k)) eqn:T; [|discriminate].
  intros _. now apply truthy_not_nullish.
Qed.

(** So does the metrics block of the structured format: each of its keys
    holds the record's value when that is truthy and a default otherwise. *)
Lemma metrics_values_defined (r : SDKMessage) (k : string) :
  In k ["duration_ms"; "num_turns"; "total_cost_usd"; "usage"] ->
  nullish (oprop (metrics r) k) = false.
Proof.
  intros [<-|[<-|[<-|[<-|[]]]]]; unfold metrics, oprop, prop, or; cbn [nullish lookup];
    simpl String.eqb; cbv iota;
    match goal with
    | |- nullish (if truthy ?v then _ else _) = false =>
        destruct (truthy v) eqn:T; [now apply truthy_not_nullish|reflexivity]
    end.
Qed.

(** C7 fails on the code: the text format tests its two metrics with
    [!== undefined], which [null] passes. For a sequence whose first
    [result] record carries [duration_ms: null] the text output has the key
    [duration_ms] with value [null], and likewise for [total_cost_usd],
    whatever follows in the sequence; the structured format turns the same
    [null] into [0]. *)
Theorem C7_text_format_emits_null_metric number_to_string (debug : bool)
    (after : list SDKMessage) :
  has_key "duration_ms" (text_response number_to_string (untimed_result :: after)) = true /\
  lookup "duration_ms" (text_response number_to_string (untimed_result :: after)) = VNull /\
  has_key "total_cost_usd" (text_response number_to_string (unpriced_result :: after))
    = true /\
  lookup "total_cost_usd" (text_response number_to_string (unpriced_result :: after))
    = VNull /\
  oprop (lookup "metrics" (structured_response debug (untimed_result :: after)))
        "duration_ms" = VNum 0 /\
  oprop (lookup "metrics" (structured_response debug (unpriced_result :: after)))
        "total_cost_usd" = VNum 0.
Proof.
  repeat split; try reflexivity; destruct debug; reflexivity.
Qed.

(** ** Failure translation *)

Lemma includes_self_prefix (s t : string) : String.prefix t s = true -> includes s t = true.
Proof.
  intros H. destruct s; simpl in *; rewrite H; reflexivity.
Qed.

Lemma includes_app (a b t : string) : includes b t = true -> includes (a ++ b) t = true.
Proof.
  intros H. induction a as [|c a IH]; simpl; [exact H|].
  rewrite IH. apply orb_true_r.
Qed.

(** The generic message carries the original message text. *)
Lemma generic_message_includes (msg : string) :
  includes (generic_message msg) msg = true.
Proof.
  unfold generic_message. apply includes_app.
  destruct msg as [|c s]; [reflexivity|].
  simpl. destruct (ascii_dec c c) as [_|N]; [|congruence].
  assert (P : forall s, String.prefix s s = true).
  { clear. induction s as [|c s IH]; [reflexivity|].
    simpl. destruct (ascii_dec c c); [exact IH|congruence]. }
  now rewrite P.
Qed.

Lemma userFriendlyMessage_diagnostic number_to_string (timeout : Q) (error : thrown) :
  userFriendlyMessage number_to_string timeout error
  = diagnostic number_to_string timeout error (categorize error).
Proof.
  unfold userFriendlyMessage, categorize, rules, diagnostic. cbn [find fst snd].
  destruct (isTimeout error), (spawn_signature (errorMessage error)),
    (auth_signature (errorMessage error)), (permission_signature (errorMessage error));
    reflexivity.
Qed.

(** Cancellation wins over every text signature, and the spawn signatures
    over the authentication ones. *)
Example abort_with_spawn_text :
  categorize (plain_error "AbortError" "spawn claude ENOENT") = TimedOut /\
  categorize (plain_error "Error" "spawn claude ENOENT: auth") = CliNotInstalled /\
  categorize (plain_error "Error" "Authentication required") = AuthenticationFailed /\
  categorize (plain_error "Error" "EACCES: permission denied") = PermissionDenied /\
  categorize (plain_error "Error" "The operation was aborted") = ExecutionFailed /\
  categorize (ThrownValue (VStr "spawn")) = ExecutionFailed.
Proof.
  repeat split.
Qed.

Lemma isTimeout_cancellation (error : thrown) :
  isTimeout error = true <-> cancellation error.
Proof.
  unfold cancellation. destruct error as [e|v]; simpl.
  - rewrite String.eqb_eq. split.
    + intros N. now exists e.
    + intros (e' & [= <-] & N). exact N.
  - split; [discriminate|]. intros (e & E & _). discriminate.
Qed.

Lemma spawn_signature_mentions (text : string) :
  spawn_signature text = true <-> mentions text spawn_texts.
Proof.
  unfold spawn_signature, mentions, spawn_texts. rewrite !orb_true_iff. split.
  - intros [[H|H]|H]; eexists; (split; [|exact H]); simpl; auto.
  - intros (s & [<-|[<-|[<-|[]]]] & H); auto.
Qed.

Lemma auth_signature_mentions (text : string) :
  auth_signature text = true <-> mentions text authentication_texts.
Proof.
  unfold auth_signature, mentions, authentication_texts. rewrite !orb_true_iff. split.
  - intros [H|H]; eexists; (split; [|exact H]); simpl; auto.
  - intros (s & [<-|[<-|[]]] & H); auto.
Qed.

Lemma permission_signature_mentions (text : string) :
  permission_signature text = true <-> mentions text permission_texts.
Proof.
  unfold permission_signature, mentions, permission_texts. rewrite !orb_true_iff. split.
  - intros [H|H]; eexists; (split; [|exact H]); simpl; auto.
  - intros (s & [<-|[<-|[]]] & H); auto.
Qed.

(** Settles a test of the translator by the condition it stands for. *)
Ltac settle b H :=
  let E := fresh "E" in
  let F := fresh "F" in
  destruct b eqn:E;
  [ apply H in E
  | assert (F : ~ (false = true)) by discriminate;
    rewrite <- E in F at 1; rewrite H in F; clear E ].

(** C8: the failure translator gives each error the message of exactly
    one category, the first of these whose condition holds: (1) a
    cancellation, read off the error's name and not off its message, gives
    "timed out after N seconds"; (2) a message text with a process-spawn
    signature ("exited with code 1", "spawn", "ENOENT") gives the
    CLI-not-installed message; (3) one with an authentication signature
    gives the authentication-failed message; (4) one with a permission
    signature ("permission", "EACCES") gives the permission-denied message;
    (5) any other error gives "execution failed" followed by the original
    message. *)
Theorem C8_failure_precedence number_to_string (timeout : Q) (error : thrown) :
  let text := errorMessage error in
  let shown := fst (userFriendlyMessage number_to_string timeout error) in
  (cancellation error ->
   shown = ("Operation timed out after " ++ number_to_string timeout
            ++ " seconds. Consider increasing the timeout in Additional Options.")%string) /\
  (~ cancellation error -> mentions text spawn_texts ->
   shown = "Claude Code CLI is not properly installed or configured.") /\
  (~ cancellation error -> ~ mentions text spawn_texts ->
   mentions text authentication_texts ->
   shown = "Claude Code authentication failed.") /\
  (~ cancellation error -> ~ mentions text spawn_texts ->
   ~ mentions text authentication_texts -> mentions text permission_texts ->
   shown = "Permission denied accessing project path or Claude CLI.") /\
  (~ cancellation error -> ~ mentions text spawn_texts ->
   ~ mentions text authentication_texts -> ~ mentions text permission_texts ->
   shown = ("Claude Code execution failed: " ++ text)%string) /\
  (forall e, cancellation (ThrownError e) <-> name e = "AbortError") /\
  (forall v, ~ cancellation (ThrownValue v)) /\
  userFriendlyMessage number_to_string timeout error
    = diagnostic number_to_string timeout error (categorize error) /\
  (categorize error = TimedOut <-> cancellation error) /\
  (categorize error = CliNotInstalled <->
   ~ cancellation error /\ mentions text spawn_texts) /\
  (categorize error = AuthenticationFailed <->
   ~ cancellation error /\ ~ mentions text spawn_texts /\
   mentions text authentication_texts) /\
  (categorize error = PermissionDenied <->
   ~ cancellation error /\ ~ mentions text spawn_texts /\
   ~ mentions text authentication_texts /\ mentions text permission_texts) /\
  (categorize error = ExecutionFailed <->
   ~ cancellation error /\ ~ mentions text spawn_texts /\
   ~ mentions text authentication_texts /\ ~ mentions text permission_texts).
Proof.
  cbv zeta.
  assert (N : forall e, cancellation (ThrownError e) <-> name e = "AbortError").
  { intros e. split.
    - intros (e' & [= <-] & H). exact H.
    - intros H. now exists e. }
  assert (V : forall v, ~ cancellation (ThrownValue v)).
  { intros v (e & E & _). discriminate. }
  rewrite userFriendlyMessage_diagnostic.
  unfold categorize, rules, diagnostic. cbn [find fst snd].
  settle (isTimeout error) (isTimeout_cancellation error);
    settle (spawn_signature (errorMessage error))
           (spawn_signature_mentions (errorMessage error));
    settle (auth_signature (errorMessage error))
           (auth_signature_mentions (errorMessage error));
    settle (permission_signature (errorMessage error))
           (permission_signature_mentions (errorMessage error));
    cbn [fst snd];
    repeat match goal with
           | |- _ /\ _ => split
           | |- _ <-> _ => split
           end;
    intros; try reflexivity; try discriminate; try contradiction; auto;
    try (exfalso; tauto); try tauto.
Qed.

Lemma C8_failure_precedence_witness :
  fst (userFriendlyMessage decimal 45 (plain_error "AbortError" "spawn claude ENOENT"))
    = "Operation timed out after 45 seconds. Consider increasing the timeout in Additional Options." /\
  fst (userFriendlyMessage decimal 45 (plain_error "Error" "spawn claude ENOENT"))
    = "Claude Code CLI is not properly installed or configured." /\
  fst (userFriendlyMessage decimal 45 (plain_error "Error" "Authentication required"))
    = "Claude Code authentication failed." /\
  fst (userFriendlyMessage decimal 45 (plain_error "Error" "EACCES: permission denied"))
    = "Permission denied accessing project path or Claude CLI." /\
  fst (userFriendlyMessage decimal 45 (plain_error "Error" "The operation was aborted"))
    = "Claude Code execution failed: The operation was aborted".
Proof.
  assert (A : forall n m, n <> "AbortError" -> ~ cancellation (plain_error n m)).
  { intros n m H (e & [= <-] & E). exact (H E). }
  assert (M : forall text l, forallb (fun s => negb (includes text s)) l = true ->
                             ~ mentions text l).
  { intros text l H (s & I & T). rewrite forallb_forall in H.
    specialize (H s I). rewrite T in H. discriminate. }
  split; [|split; [|split; [|split]]].
  - apply (proj1 (C8_failure_precedence decimal 45
                    (plain_error "AbortError" "spawn claude ENOENT"))).
    eexists. split; reflexivity.
  - apply (proj1 (proj2 (C8_failure_precedence decimal 45
                           (plain_error "Error" "spawn claude ENOENT")))).
    + apply A. discriminate.
    + exists "spawn". split; [right; left; reflexivity|reflexivity].
  - apply (proj1 (proj2 (proj2 (C8_failure_precedence decimal 45
                                  (plain_error "Error" "Authentication required"))))).
    + apply A. discriminate.
    + apply M. reflexivity.
    + exists "Authentication". split; [left; reflexivity|reflexivity].
  - apply (proj1 (proj2 (proj2 (proj2
             (C8_failure_precedence decimal 45
                (plain_error "Error" "EACCES: permission denied")))))).
    + apply A. discriminate.
    + apply M. reflexivity.
    + apply M. reflexivity.
    + exists "permission". split; [left; reflexivity|reflexivity].
  - apply (proj1 (proj2 (proj2 (proj2 (proj2
             (C8_failure_precedence decimal 45
                (plain_error "Error" "The operation was aborted"))))))).
    + apply A. discriminate.
    + apply M. reflexivity.
    + apply M. reflexivity.
    + apply M. reflexivity.
Defined.

(** ** The per-item timer *)

Ltac run_statements :=
  unfold iteration, on_error, attempt, try_catch, bind, getNodeParameter, assign_timeout,
    setTimeout, clearTimeout, push, drain, throw, ret; cbn [item_of param_operation
    param_prompt param_model param_maxTurns param_timeout param_projectPath
    param_outputFormat param_allowedTools param_settingSources param_additionalOptions
    fst snd returnData timeout timers fresh].

Lemma filter_timers_app (id : nat) (l : list Timer) (t : Timer) :
  timeoutId t = id ->
  filter (fun t => negb (timeoutId t =? id)%nat) (l ++ [t])
  = filter (fun t => negb (timeoutId t =? id)%nat) l.
Proof.
  intros E. rewrite filter_app. simpl. rewrite E, Nat.eqb_refl. simpl. apply app_nil_r.
Qed.

Lemma not_in_filter_timers (id : nat) (l : list Timer) :
  ~ In id (map timeoutId (filter (fun t => negb (timeoutId t =? id)%nat) l)).
Proof.
  intros H. apply in_map_iff in H as (t & E & H).
  apply filter_In in H as [_ H]. rewrite E, Nat.eqb_refl in H. discriminate.
Qed.

(** When the prompt passes validation, every way out of the inner [try]
    clears the item's timer: it is not pending after the turn, whether the
    sequence was drained or an error was thrown, and whatever the host's
    policy. *)
Lemma valid_prompt_clears_timer number_to_string new_stack query continueOnFail
    (itemIndex : nat) operation prompt model maxTurns t projectPath outputFormat
    allowedTools settingSources additionalOptions (st : State) :
  blank prompt = false ->
  ~ pending (S (fresh st))
      (snd (iteration number_to_string new_stack query continueOnFail itemIndex
              (item_of operation prompt model maxTurns t projectPath outputFormat
                       allowedTools settingSources additionalOptions) st)).
Proof.
  intros B. unfold pending. run_statements. rewrite B.
  destruct (consume _ _ _ _) as [e|messages]; cbn [fst snd timers].
  - destruct continueOnFail; cbn [fst snd timers];
      rewrite filter_timers_app by reflexivity; apply not_in_filter_timers.
  - destruct (format _ _ _ _); cbn [fst snd timers];
      rewrite filter_timers_app by reflexivity; apply not_in_filter_timers.
Qed.

(** When the prompt fails validation the error is thrown between arming
    the timer and entering the inner [try], whose [catch] is the only
    place that clears it on failure: the timer stays pending. *)
Lemma blank_prompt_leaves_timer number_to_string new_stack query continueOnFail
    (itemIndex : nat) operation prompt model maxTurns t projectPath outputFormat
    allowedTools settingSources additionalOptions (st : State) :
  blank prompt = true ->
  timers (snd (iteration number_to_string new_stack query continueOnFail itemIndex
                 (item_of operation prompt model maxTurns t projectPath outputFormat
                          allowedTools settingSources additionalOptions) st))
  = timers st ++ [armed st t].
Proof.
  intros B. run_statements. rewrite B.
  destruct continueOnFail; reflexivity.
Qed.

(** C2 fails on the code: an item whose prompt is blank leaves its timer
    armed. With the host continuing on failure, the batch of a blank prompt
    followed by a valid one completes with both items answered and the
    first item's timer still pending; without it, the batch is aborted
    with the timer pending. *)
Theorem C2_blank_prompt_leaves_timer_armed :
  let run := execute decimal stack_of scripted true
                     [default_item "   "; default_item "List files"] idle in
  let aborted := execute decimal stack_of scripted false [default_item ""] idle in
  (exists out, fst run = inr [out] /\ List.length out = 2%nat) /\
  timers (snd run) = [ {| timeoutId := 1; timeoutMs := 300000; aborts := 0 |} ] /\
  pending 1 (snd run) /\
  ~ pending 3 (snd run) /\
  timers (snd aborted) = [ {| timeoutId := 1; timeoutMs := 300000; aborts := 0 |} ].
Proof.
  cbv zeta. split; [eexists; split; reflexivity|].
  split; [reflexivity|]. split; [left; reflexivity|].
  split; [|reflexivity].
  vm_compute. intros [H|[]]. discriminate.
Qed.

(** ** The host's policy on failure *)

(** An attempt that fails has pushed nothing: the push is its last
    statement. *)
Lemma attempt_failure_returnData number_to_string new_stack query (itemIndex : nat)
    (item : Item) (st st1 : State) (error : thrown) :
  attempt number_to_string new_stack query itemIndex item st = (inl error, st1) ->
  returnData st1 = returnData st.
Proof.
  destruct item as [o p m mt t pp f tools sources opts].
  unfold attempt, try_catch, bind, getNodeParameter, assign_timeout, setTimeout,
    clearTimeout, push, drain, throw, ret;
    cbn [param_operation param_prompt param_model param_maxTurns param_timeout
         param_projectPath param_outputFormat param_allowedTools param_settingSources
         param_additionalOptions].
  destruct o; [intros [= _ <-]; reflexivity|].
  destruct p; [intros [= _ <-]; reflexivity|].
  destruct m; [intros [= _ <-]; reflexivity|].
  destruct mt; [intros [= _ <-]; reflexivity|].
  destruct t; [intros [= _ <-]; reflexivity|].
  destruct pp; [intros [= _ <-]; reflexivity|].
  destruct f; [intros [= _ <-]; reflexivity|].
  destruct tools; [intros [= _ <-]; reflexivity|].
  destruct sources; [intros [= _ <-]; reflexivity|].
  destruct opts; [intros [= _ <-]; reflexivity|].
  cbn [fst snd]. destruct (blank _); [intros [= _ <-]; reflexivity|].
  destruct (consume _ _ _ _); cbn [fst snd]; [intros [= _ <-]; reflexivity|].
  destruct (format _ _ _ _); discriminate.
Qed.

Lemma iteration_on_failure number_to_string new_stack query continueOnFail
    (itemIndex : nat) (item : Item) (st st1 : State) (error : thrown) :
  attempt number_to_string new_stack query itemIndex item (started st) = (inl error, st1) ->
  iteration number_to_string new_stack query continueOnFail itemIndex item st
  = if continueOnFail
    then (inr tt, recorded (error_record number_to_string error itemIndex) st1)
    else (inl (raised number_to_string new_stack (timeout st1) error itemIndex), st1).
Proof.
  intros H. unfold iteration, bind, try_catch, on_error.
  change (snd (assign_timeout 300 st)) with (started st) in *.
  change (assign_timeout 300 st) with (@inr thrown unit tt, started st).
  cbv beta iota. rewrite H. destruct continueOnFail; reflexivity.
Qed.

(** C9: when an item fails and the host continues on failure, the item's
    output is the one error record, with the error message under [error],
    [errorType] equal to [timeout] exactly when the error is a
    cancellation (an [Error] named [AbortError]) and to [execution_error]
    otherwise, an [errorDetails] key and [success: false], and the loop
    goes on with the next item. When the host does not continue, the error
    raised is the [NodeOperationError] constructed from the message and the
    description of the error's category and from the item's index, nothing
    is pushed for the item, and the rest of the batch is not looked at. *)
Theorem C9_failure_policy number_to_string new_stack query (itemIndex : nat)
    (item : Item) (rest : list Item) (st st1 : State) (error : thrown) :
  attempt number_to_string new_stack query itemIndex item (started st) = (inl error, st1) ->
  let record := error_record number_to_string error itemIndex in
  let failure := raised number_to_string new_stack (timeout st1) error itemIndex in
  let translated :=
    diagnostic number_to_string (timeout st1) error (categorize error) in
  (iteration number_to_string new_stack query true itemIndex item st
     = (inr tt, recorded record st1) /\
   returnData (recorded record st1) = returnData st ++ [record] /\
   loop number_to_string new_stack query true (item :: rest) itemIndex st
     = loop number_to_string new_stack query true rest (S itemIndex) (recorded record st1) /\
   lookup "error" (json record) = VStr (errorMessage error) /\
   (lookup "errorType" (json record) = VStr "timeout" <-> cancellation error) /\
   (lookup "errorType" (json record) = VStr "execution_error" <-> ~ cancellation error) /\
   has_key "errorDetails" (json record) = true /\
   lookup "success" (json record) = VBool false /\
   pairedItem record = itemIndex) /\
  (iteration number_to_string new_stack query false itemIndex item st = (inl failure, st1) /\
   loop number_to_string new_stack query false (item :: rest) itemIndex st
     = (inl failure, st1) /\
   returnData st1 = returnData st /\
   failure = NodeOperationError new_stack (fst translated) itemIndex
                                (Some (snd translated))).
Proof.
  intros H record failure translated.
  pose proof (attempt_failure_returnData _ _ _ _ _ _ _ _ H) as R.
  pose proof (iteration_on_failure number_to_string new_stack query true _ _ _ _ _ H) as T.
  pose proof (iteration_on_failure number_to_string new_stack query false _ _ _ _ _ H) as F.
  cbv iota in T, F. split.
  - split; [exact T|]. split; [simpl; now rewrite R|].
    split; [cbn [loop]; unfold bind at 1; now rewrite T|].
    split; [reflexivity|]. subst record. cbn [json error_record].
    simpl lookup. simpl has_key.
    pose proof (isTimeout_cancellation error) as C.
    destruct (isTimeout error).
    + assert (Y : cancellation error) by now apply C.
      repeat split; intros; try reflexivity; try contradiction; try congruence; auto.
    + assert (N : ~ cancellation error) by (intros Y; apply C in Y; discriminate).
      repeat split; intros; try reflexivity; try contradiction; try congruence; auto.
  - split; [exact F|]. split; [cbn [loop]; unfold bind at 1; now rewrite F|].
    split; [exact R|]. subst failure translated. unfold raised.
    now rewrite userFriendlyMessage_diagnostic.
Qed.

Lemma C9_failure_policy_witness :
  exists st1 error,
    attempt decimal stack_of cancelled 0 (default_item "List files") (started idle)
      = (inl error, st1) /\
    lookup "errorType" (json (error_record decimal error 0)) = VStr "timeout" /\
    loop decimal stack_of cancelled true [default_item "List files"; default_item "Next"]
         0 idle
      = loop decimal stack_of cancelled true [default_item "Next"] 1
             (recorded (error_record decimal error 0) st1) /\
    loop decimal stack_of cancelled false [default_item "List files"; default_item "Next"]
         0 idle
      = (inl (NodeOperationError stack_of
                "Operation timed out after 300 seconds. Consider increasing the timeout in Additional Options."
                0 (Some "The operation was aborted")),
         st1).
Proof.
  eexists _, _.
  assert (H : attempt decimal stack_of cancelled 0 (default_item "List files")
                      (started idle)
              = (inl (plain_error "AbortError" "The operation was aborted"),
                 {| returnData := []; timeout := 300; timers := []; fresh := 2 |}))
    by reflexivity.
  split; [exact H|].
  destruct (C9_failure_policy decimal stack_of cancelled 0 (default_item "List files")
              [default_item "Next"] idle _ _ H) as [C A].
  split; [|split].
  - apply (proj1 (proj2 (proj2 (proj2 (proj2 C))))).
    eexists. split; reflexivity.
  - exact (proj1 (proj2 (proj2 C))).
  - rewrite (proj1 (proj2 A)), (proj2 (proj2 (proj2 A))). reflexivity.
Defined.

(** ** Trimming and blank strings *)

Lemma trimStart_empty (s : string) :
  trimStart s = "" <-> whitespace_only s = true.
Proof.
  induction s as [|c s IH]; simpl; [tauto|].
  destruct (is_space c); simpl; [exact IH|]. split; discriminate.
Qed.

Lemma trimStart_starts (s : string) : starts_with_space (trimStart s) = false.
Proof.
  induction s as [|c s IH]; simpl; [reflexivity|].
  destruct (is_space c) eqn:E; [exact IH|]. simpl. exact E.
Qed.

Lemma trimEnd_starts (s : string) :
  starts_with_space s = false -> s <> "" ->
  trimEnd s <> "" /\ starts_with_space (trimEnd s) = false.
Proof.
  destruct s as [|c s]; [congruence|]. simpl. intros E _.
  destruct (trimEnd s); rewrite ?E; simpl; split; congruence.
Qed.

Lemma trimEnd_ends (s : string) : ends_with_space (trimEnd s) = false.
Proof.
  induction s as [|c s IH]; simpl; [reflexivity|].
  destruct (trimEnd s) as [|d r] eqn:E.
  - destruct (is_space c) eqn:C; simpl; [reflexivity|exact C].
  - exact IH.
Qed.

Lemma trimEnd_fixed (s : string) :
  ends_with_space s = false -> trimEnd s = s.
Proof.
  induction s as [|c s IH]; simpl; [reflexivity|].
  destruct s as [|d r].
  - intros ->. reflexivity.
  - intros H. rewrite (IH H). reflexivity.
Qed.

Lemma trimStart_fixed (s : string) :
  starts_with_space s = false -> trimStart s = s.
Proof.
  destruct s as [|c s]; simpl; [reflexivity|]. intros ->. reflexivity.
Qed.

Lemma trim_empty (s : string) : trim s = "" <-> whitespace_only s = true.
Proof.
  unfold trim. rewrite <- trimStart_empty. split.
  - intros H. destruct (string_dec (trimStart s) "") as [E|N]; [exact E|].
    destruct (trimEnd_starts _ (trimStart_starts s) N) as [C _]. contradiction.
  - intros ->. reflexivity.
Qed.

Lemma trim_shape (s : string) :
  starts_with_space (trim s) = false /\ ends_with_space (trim s) = false.
Proof.
  split; [|apply trimEnd_ends]. unfold trim.
  destruct (string_dec (trimStart s) "") as [E|N]; [rewrite E; reflexivity|].
  apply (trimEnd_starts _ (trimStart_starts s) N).
Qed.

Lemma trim_idempotent (s : string) : trim (trim s) = trim s.
Proof.
  destruct (trim_shape s) as [S E]. unfold trim at 1.
  rewrite (trimStart_fixed _ S). now apply trimEnd_fixed.
Qed.

Lemma blank_whitespace_only (s : string) : blank s = whitespace_only s.
Proof.
  unfold blank.
  destruct (whitespace_only s) eqn:W.
  - apply trim_empty in W. rewrite W. simpl. apply orb_true_r.
  - assert (T : trim s <> "") by (intros T; apply trim_empty in T; congruence).
    apply String.eqb_neq in T. rewrite T.
    destruct s; [discriminate|reflexivity].
Qed.

Lemma whitespace_only_app (a b : string) :
  whitespace_only (a ++ b) = whitespace_only a && whitespace_only b.
Proof.
  induction a as [|c a IH]; simpl; [reflexivity|].
  rewrite IH. apply andb_assoc.
Qed.

(** X1: the prompt check rejects exactly the prompts made of white space
    only, the empty prompt included; a prompt with any other character
    passes, wherever its white space is. *)
Theorem X1_blank_iff_whitespace_only (prompt : string) :
  blank prompt = whitespace_only prompt /\
  blank "" = true /\
  (forall before c after,
     is_space c = false -> blank (before ++ String c after) = false).
Proof.
  split; [apply blank_whitespace_only|]. split; [reflexivity|].
  intros before c after C.
  rewrite blank_whitespace_only, whitespace_only_app. simpl. rewrite C.
  apply andb_false_r.
Qed.

Lemma X1_blank_witness : blank "  fix the build " = false.
Proof.
  apply (proj2 (proj2 (X1_blank_iff_whitespace_only "")) "  " "f"%char "ix the build ").
  reflexivity.
Defined.

Lemma queryOptions_cwd operation prompt model maxTurns projectPath allowedTools
    settingSources additionalOptions abortController :
  o_cwd (q_options (queryOptions operation prompt model maxTurns projectPath allowedTools
                                 settingSources additionalOptions abortController))
  = if blank projectPath then None else Some (trim projectPath).
Proof.
  unfold queryOptions, blank; simpl q_options.
  destruct (String.eqb operation "continue"); simpl o_cwd;
    destruct (0 <? List.length settingSources)%nat; simpl o_cwd;
    destruct (0 <? List.length allowedTools)%nat; simpl o_cwd;
    destruct (String.eqb projectPath ""), (String.eqb (trim projectPath) "");
    simpl; try reflexivity;
    destruct (systemPrompt additionalOptions) as [sp|]; try reflexivity;
    destruct (negb (String.eqb sp "")); reflexivity.
Qed.

(** X2: the working directory is passed to the SDK exactly when the
    project path has a character that is not white space; what is passed
    is the trimmed path, which is not empty, neither starts nor ends with
    white space, and is unchanged by trimming again. *)
Theorem X2_cwd_is_trimmed_path operation prompt model maxTurns projectPath allowedTools
    settingSources additionalOptions abortController :
  let cwd :=
    o_cwd (q_options (queryOptions operation prompt model maxTurns projectPath
                                   allowedTools settingSources additionalOptions
                                   abortController)) in
  (cwd = None <-> whitespace_only projectPath = true) /\
  (forall p, cwd = Some p ->
             p = trim projectPath /\ p <> "" /\ starts_with_space p = false /\
             ends_with_space p = false /\ trim p = p).
Proof.
  cbv zeta. rewrite queryOptions_cwd, blank_whitespace_only.
  destruct (whitespace_only projectPath) eqn:W; split.
  - tauto.
  - discriminate.
  - split; discriminate.
  - intros p [= <-]. split; [reflexivity|].
    split; [intros T; apply trim_empty in T; congruence|].
    destruct (trim_shape projectPath) as [S E].
    repeat split; auto. apply trim_idempotent.
Qed.

Lemma X2_cwd_witness :
  trim " /srv/app " = "/srv/app" /\ "/srv/app" <> "" /\
  starts_with_space "/srv/app" = false /\ ends_with_space "/srv/app" = false /\
  trim "/srv/app" = "/srv/app".
Proof.
  pose proof (proj2 (X2_cwd_is_trimmed_path "query" "p" "sonnet" 10 " /srv/app " [] []
                       no_options 0) "/srv/app" eq_refl) as H.
  exact (conj (eq_sym (proj1 H)) (proj2 H)).
Defined.

(** ** The other keys of the option object *)

(** X3: the conditional assignments do not interfere. The prompt, the turn
    limit and the model are passed as given; the permission mode is
    [default] only when permissions were required and [bypassPermissions]
    otherwise; the tool list is passed only when it is not empty; the
    system prompt only when it is not empty; [continue] is present, and
    then [true], exactly for the [continue] operation (any other operation
    text means a new query); and [mcpServers] is never set. *)
Theorem X3_option_keys operation prompt model maxTurns projectPath allowedTools
    settingSources additionalOptions abortController :
  let q := queryOptions operation prompt model maxTurns projectPath allowedTools
                        settingSources additionalOptions abortController in
  let options := q_options q in
  q_prompt q = prompt /\ q_abortController q = abortController /\
  o_maxTurns options = maxTurns /\ o_model options = model /\
  o_permissionMode options
    = (if truthy_bool (requirePermissions additionalOptions)
       then "default" else "bypassPermissions") /\
  o_allowedTools options
    = match allowedTools with [] => None | _ :: _ => Some allowedTools end /\
  o_systemPrompt options
    = match systemPrompt additionalOptions with
      | Some "" => None
      | other => other
      end /\
  o_continue options = (if String.eqb operation "continue" then Some true else None) /\
  o_continue options <> Some false /\
  o_mcpServers options = None.
Proof.
  cbv zeta. unfold queryOptions; cbn [q_options q_prompt q_abortController].
  destruct (String.eqb operation "continue");
    destruct settingSources as [|s1 l1]; destruct allowedTools as [|t1 l2];
    cbn [List.length Nat.ltb Nat.leb];
    destruct (negb (String.eqb projectPath "") && negb (String.eqb (trim projectPath) ""));
    destruct (systemPrompt additionalOptions) as [[|c sp]|]; cbn [String.eqb negb];
    repeat split; try reflexivity; discriminate.
Qed.

(** ** Draining *)

Lemma track_progress_quiet (message : SDKMessage) new_stack :
  track_progress new_stack false message = None.
Proof.
  unfold track_progress. destruct (_ && _); reflexivity.
Qed.

Lemma consume_success new_stack (debug : bool) (pending : list SDKMessage)
    (ending : option thrown) (acc messages : list SDKMessage) :
  consume new_stack debug pending ending acc = inr messages ->
  messages = acc ++ pending /\ ending = None.
Proof.
  revert acc. induction pending as [|m l IH]; intros acc; simpl.
  - destruct ending; [discriminate|]. intros [= <-]. now rewrite app_nil_r.
  - destruct (track_progress new_stack debug m); [discriminate|].
    intros H. apply IH in H as [-> ->]. now rewrite <- app_assoc.
Qed.

Lemma consume_quiet new_stack (pending : list SDKMessage) (ending : option thrown)
    (acc : list SDKMessage) :
  consume new_stack false pending ending acc
  = match ending with
    | Some e => inl e
    | None => inr (acc ++ pending)
    end.
Proof.
  revert acc. induction pending as [|m l IH]; intros acc; simpl.
  - now rewrite app_nil_r.
  - rewrite track_progress_quiet, IH, <- app_assoc. reflexivity.
Qed.

(** X4: a drain that completes has consumed exactly the records the SDK
    yielded, in their order, and the sequence ended normally; without debug
    the drain fails only with the error the sequence itself ends with, and
    only after every yielded record has been taken (the records taken
    before the error are dropped with it). *)
Theorem X4_drain_consumes_the_sequence new_stack (debug : bool) (s : Stream) :
  (forall messages,
     consume new_stack debug (yields s) (raises s) [] = inr messages ->
     messages = yields s /\ raises s = None) /\
  consume new_stack false (yields s) (raises s) []
  = match raises s with
    | Some e => inl e
    | None => inr (yields s)
    end.
Proof.
  split.
  - intros messages H. now apply consume_success in H.
  - apply consume_quiet.
Qed.

Lemma X4_drain_witness :
  consume stack_of true scenario None [] = inr scenario /\
  scenario = yields (scripted (queryOptions "query" "p" "sonnet" 10 "" [] [] no_options 0)).
Proof.
  assert (H : consume stack_of true (yields (scripted (queryOptions "query" "p" "sonnet" 10
                                                         "" [] [] no_options 0)))
                      (raises (scripted (queryOptions "query" "p" "sonnet" 10 "" [] []
                                           no_options 0))) []
              = inr scenario) by reflexivity.
  split; [exact H|].
  exact (proj1 (proj1 (X4_drain_consumes_the_sequence stack_of true _) scenario H)).
Defined.

Lemma empty_content_throws new_stack (m : SDKMessage) :
  type m = "assistant" -> oprop (field m "message") "content" = VArr [] ->
  track_progress new_stack true m = Some (cannot_read new_stack VUndefined "type").
Proof.
  intros T C. unfold track_progress. rewrite T, C. simpl.
  assert (E : prop (field m "message") "content" = VArr []).
  { unfold oprop in C. destruct (nullish (field m "message")); [discriminate|exact C]. }
  rewrite E. reflexivity.
Qed.

(** X5: debug logging can turn a good run into a failure. An assistant
    record whose content array is empty is consumed without debug, but
    with debug the logging reads the type of a first block that is not
    there and the drain throws a [TypeError] at that record, whatever
    follows it; the translator files the error under the generic
    category. *)
Theorem X5_debug_throws_on_empty_content new_stack (m : SDKMessage)
    (before after : list SDKMessage) (ending : option thrown) :
  type m = "assistant" -> oprop (field m "message") "content" = VArr [] ->
  Forall (fun b => track_progress new_stack true b = None) before ->
  consume new_stack false (before ++ m :: after) None [] = inr (before ++ m :: after) /\
  consume new_stack true (before ++ m :: after) ending []
    = inl (cannot_read new_stack VUndefined "type") /\
  isTimeout (cannot_read new_stack VUndefined "type") = false /\
  categorize (cannot_read new_stack VUndefined "type") = ExecutionFailed.
Proof.
  intros T C Q. split; [apply consume_quiet|]. split; [|split; reflexivity].
  generalize (@nil SDKMessage) as acc.
  induction Q as [|b l Hb Q IH]; intros acc; simpl.
  - now rewrite (empty_content_throws new_stack m T C).
  - rewrite Hb. apply IH.
Qed.

Lemma X5_debug_witness :
  consume stack_of false (firstn 2 scenario ++ empty_turn :: skipn 2 scenario) None []
    = inr (firstn 2 scenario ++ empty_turn :: skipn 2 scenario) /\
  consume stack_of true (firstn 2 scenario ++ empty_turn :: skipn 2 scenario) None []
    = inl (cannot_read stack_of VUndefined "type").
Proof.
  assert (Q : Forall (fun b => track_progress stack_of true b = None) (firstn 2 scenario))
    by (repeat constructor).
  pose proof (X5_debug_throws_on_empty_content stack_of empty_turn (firstn 2 scenario)
                (skipn 2 scenario) None eq_refl eq_refl Q) as H.
  exact (conj (proj1 H) (proj1 (proj2 H))).
Defined.

(** ** The shape of the text and structured outputs *)

Lemma structured_response_shape (debug : bool) (messages : list SDKMessage) :
  let r := resultMessage messages in
  structured_response debug messages
  = [ ("summary",
       VObj [ ("userMessageCount", of_nat (List.length (userMessages messages)));
              ("assistantMessageCount", of_nat (List.length (assistantMessages messages)));
              ("toolUseCount", of_nat (List.length (toolUses messages)));
              ("hasResult", VBool (match r with Some _ => true | None => false end));
              ("toolsAvailable", or (ofield (systemInit messages) "tools") (VArr [])) ]);
      ("success", VBool (str_eq (ofield r "subtype") "success")) ]
    ++ optional (truthy (ofield r "result")) "result" (ofield r "result")
    ++ optional (negb (truthy (ofield r "result")) && truthy (ofield r "error"))
                "error" (ofield r "error")
    ++ optional (negb (is_undefined (ofield r "duration_ms"))) "metrics"
                (match r with Some r => metrics r | None => VUndefined end)
    ++ optional debug "messages" (VArr (map raw messages)).
Proof.
  cbv zeta. unfold structured_response, optional.
  destruct (resultMessage messages) as [r|]; simpl ofield;
    [destruct (is_undefined (field r "duration_ms")),
       (truthy (field r "result")), (truthy (field r "error"))|];
    destruct debug; reflexivity.
Qed.

Lemma text_response_shape number_to_string (messages : list SDKMessage) :
  let r := resultMessage messages in
  text_response number_to_string messages
  = [ ("result",
       VStr (ToString number_to_string
               (or (or (ofield r "result") (ofield r "error"))
                   (VStr "No result available"))));
      ("success", VBool (str_eq (ofield r "subtype") "success")) ]
    ++ optional (negb (is_undefined (ofield r "duration_ms"))) "duration_ms"
                (ofield r "duration_ms")
    ++ optional (negb (is_undefined (ofield r "total_cost_usd"))) "total_cost_usd"
                (ofield r "total_cost_usd").
Proof.
  cbv zeta. unfold text_response, optional.
  destruct (is_undefined (ofield (resultMessage messages) "duration_ms")),
    (is_undefined (ofield (resultMessage messages) "total_cost_usd")),
    (str_eq (ofield (resultMessage messages) "subtype") "success"); reflexivity.
Qed.

(** X6: the structured output carries a [messages] key exactly under
    debug; it is then the last key and holds every consumed record, whole
    and in order. *)
Theorem X6_structured_messages_iff_debug (debug : bool) (messages : list SDKMessage) :
  has_key "messages" (structured_response debug messages) = debug /\
  (debug = true ->
   lookup "messages" (structured_response debug messages) = VArr (map raw messages) /\
   last (keys (structured_response debug messages)) "" = "messages" /\
   forall i, nth_error (map raw messages) i = option_map raw (nth_error messages i)).
Proof.
  rewrite structured_response_shape. cbv zeta. unfold optional.
  destruct (resultMessage messages) as [r|]; simpl ofield;
    [destruct (is_undefined (field r "duration_ms")),
       (truthy (field r "result")), (truthy (field r "error"))|];
    destruct debug; (split; [reflexivity|]); intros; try discriminate;
    (split; [reflexivity|split; [reflexivity|intros; apply nth_error_map]]).
Qed.

Lemma X6_structured_messages_witness :
  lookup "messages" (structured_response true scenario) = VArr (map raw scenario).
Proof.
  exact (proj1 (proj2 (X6_structured_messages_iff_debug true scenario) eq_refl)).
Defined.

(** X7: the text output has the keys [result] and [success], in that
    order, followed by [duration_ms] and [total_cost_usd] when the record
    used has them defined, and no other key; [result] is always a string
    and [success] a boolean, and the two metrics are the record's values. *)
Theorem X7_text_output_keys number_to_string (messages : list SDKMessage) :
  let r := resultMessage messages in
  let out := text_response number_to_string messages in
  keys out
  = ["result"; "success"]
    ++ (if is_undefined (ofield r "duration_ms") then [] else ["duration_ms"])
    ++ (if is_undefined (ofield r "total_cost_usd") then [] else ["total_cost_usd"]) /\
  (exists s, lookup "result" out = VStr s) /\
  (exists b, lookup "success" out = VBool b) /\
  lookup "duration_ms" out = ofield r "duration_ms" /\
  lookup "total_cost_usd" out = ofield r "total_cost_usd".
Proof.
  cbv zeta. rewrite text_response_shape. cbv zeta. unfold optional.
  destruct (ofield (resultMessage messages) "duration_ms") eqn:D,
    (ofield (resultMessage messages) "total_cost_usd") eqn:C; simpl;
    (split; [reflexivity|]); (split; [eexists; reflexivity|]);
    (split; [eexists; reflexivity|]); split; reflexivity.
Qed.

(** X8: the structured output never carries both [result] and [error]:
    [result] is there exactly when the record used has a truthy [result],
    [error] exactly when it has no truthy [result] but a truthy [error];
    and [success] is reported only together with [hasResult]. *)
Theorem X8_result_and_error_exclude (debug : bool) (messages : list SDKMessage) :
  let r := resultMessage messages in
  let out := structured_response debug messages in
  has_key "result" out = truthy (ofield r "result") /\
  has_key "error" out = negb (truthy (ofield r "result")) && truthy (ofield r "error") /\
  has_key "result" out && has_key "error" out = false /\
  (messages = [] -> has_key "result" out = false /\ has_key "error" out = false) /\
  (lookup "success" out = VBool true -> summary_of out "hasResult" = VBool true).
Proof.
  cbv zeta. rewrite structured_response_shape. cbv zeta. unfold optional, summary_of.
  destruct (resultMessage messages) as [r|] eqn:R; simpl ofield.
  - assert (N : messages <> []) by (intros ->; discriminate).
    destruct (is_undefined (field r "duration_ms")),
      (truthy (field r "result")), (truthy (field r "error")), debug;
      (split; [reflexivity|]); (split; [reflexivity|]); (split; [reflexivity|]);
      (split; [intros E; contradiction|]); simpl;
      destruct (str_eq (field r "subtype") "success"); intros; try discriminate;
      reflexivity.
  - destruct debug; repeat split; try reflexivity; discriminate.
Qed.

Lemma X8_result_and_error_witness :
  has_key "result" (structured_response false []) = false /\
  has_key "error" (structured_response false []) = false /\
  summary_of (structured_response false scenario) "hasResult" = VBool true.
Proof.
  pose proof (X8_result_and_error_exclude false []) as E.
  pose proof (X8_result_and_error_exclude false scenario) as S.
  cbv zeta in E, S.
  exact (conj (proj1 (proj1 (proj2 (proj2 (proj2 E))) eq_refl))
              (conj (proj2 (proj1 (proj2 (proj2 (proj2 E))) eq_refl))
                    (proj2 (proj2 (proj2 (proj2 S))) eq_refl))).
Defined.

(** ** The summary block *)

Lemma partition_by_type (messages : list SDKMessage) :
  List.length messages
  = (List.length (userMessages messages) + List.length (assistantMessages messages)
     + List.length (otherMessages messages))%nat.
Proof.
  unfold userMessages, assistantMessages, otherMessages.
  induction messages as [|m l IH]; [reflexivity|]. cbn [filter].
  destruct (String.eqb_spec (type m) "user") as [U|U].
  - rewrite U. cbn. lia.
  - destruct (String.eqb (type m) "assistant"); cbn; lia.
Qed.

Lemma toolUses_among_assistant (messages : list SDKMessage) :
  (List.length (toolUses messages) <= List.length (assistantMessages messages))%nat /\
  incl (toolUses messages) (assistantMessages messages).
Proof.
  unfold toolUses, assistantMessages. split.
  - induction messages as [|m l IH]; [reflexivity|]. cbn [filter].
    destruct (String.eqb (type m) "assistant"); cbn [andb].
    + destruct (str_eq _ _); cbn; lia.
    + exact IH.
  - intros m H. apply filter_In in H as [H P]. apply filter_In.
    apply andb_true_iff in P as [P _]. now split.
Qed.

Lemma str_eq_spec (v : value) (s : string) : str_eq v s = true <-> v = VStr s.
Proof.
  destruct v; simpl; try (split; discriminate).
  rewrite String.eqb_eq. split; [now intros ->|now intros [= ->]].
Qed.

Lemma toolUses_member (messages : list SDKMessage) (m : SDKMessage) :
  In m (toolUses messages) <->
  In m messages /\ type m = "assistant" /\
  oprop (oat0 (oprop (field m "message") "content")) "type" = VStr "tool_use".
Proof.
  unfold toolUses. rewrite filter_In, andb_true_iff, String.eqb_eq, str_eq_spec.
  tauto.
Qed.

Lemma toolUses_single (m : SDKMessage) (payload block : obj) (rest : list value) :
  type m = "assistant" -> field m "message" = VObj payload ->
  lookup "content" payload = VArr (VObj block :: rest) ->
  (lookup "type" block = VStr "tool_use" -> toolUses [m] = [m]) /\
  (lookup "type" block <> VStr "tool_use" -> toolUses [m] = []).
Proof.
  intros T P C. unfold toolUses. cbn [filter]. rewrite T, P. cbn. rewrite C. cbn.
  destruct (str_eq (lookup "type" block) "tool_use") eqn:E.
  - split; [reflexivity|]. intros N. apply str_eq_spec in E. contradiction.
  - split; [|reflexivity]. intros N. apply str_eq_spec in N. congruence.
Qed.

(** X9: the summary counts partition the sequence by type: every record
    is counted as a user message (type [user]), as an assistant message
    (type [assistant]) or as neither, never twice, so the two counts
    together never exceed the number of records. The tool-use count is the
    number of assistant records whose first content block has type
    [tool_use]: a record is counted exactly when it is one, by its first
    block alone whatever the blocks after it are, so the count never
    exceeds the assistant count. The counts of a sequence made of two
    parts are the sums of the parts' counts. *)
Theorem X9_summary_counts (debug : bool) (messages more : list SDKMessage) :
  let out := structured_response debug messages in
  let u := List.length (userMessages messages) in
  let a := List.length (assistantMessages messages) in
  let t := List.length (toolUses messages) in
  summary_of out "userMessageCount" = of_nat u /\
  summary_of out "assistantMessageCount" = of_nat a /\
  summary_of out "toolUseCount" = of_nat t /\
  (u + a + List.length (otherMessages messages) = List.length messages)%nat /\
  (t <= a)%nat /\
  List.length (userMessages (messages ++ more))
    = (u + List.length (userMessages more))%nat /\
  List.length (assistantMessages (messages ++ more))
    = (a + List.length (assistantMessages more))%nat /\
  List.length (toolUses (messages ++ more)) = (t + List.length (toolUses more))%nat /\
  (forall m, In m (userMessages messages) <-> In m messages /\ type m = "user") /\
  (forall m, In m (assistantMessages messages) <->
             In m messages /\ type m = "assistant") /\
  (forall m, In m (toolUses messages) <->
             In m messages /\ type m = "assistant" /\
             oprop (oat0 (oprop (field m "message") "content")) "type"
             = VStr "tool_use") /\
  (forall m payload block rest,
     type m = "assistant" -> field m "message" = VObj payload ->
     lookup "content" payload = VArr (VObj block :: rest) ->
     (lookup "type" block = VStr "tool_use" -> toolUses [m] = [m]) /\
     (lookup "type" block <> VStr "tool_use" -> toolUses [m] = [])).
Proof.
  cbv zeta. unfold summary_of. rewrite structured_response_shape. cbv zeta.
  split; [reflexivity|]. split; [reflexivity|]. split; [reflexivity|].
  split; [symmetry; apply partition_by_type|].
  split; [apply toolUses_among_assistant|].
  split; [unfold userMessages; now rewrite filter_app, length_app|].
  split; [unfold assistantMessages; now rewrite filter_app, length_app|].
  split; [unfold toolUses; now rewrite filter_app, length_app|].
  split; [intros m; unfold userMessages; now rewrite filter_In, String.eqb_eq|].
  split; [intros m; unfold assistantMessages; now rewrite filter_In, String.eqb_eq|].
  split; [apply toolUses_member|apply toolUses_single].
Qed.

Lemma X9_summary_counts_witness :
  toolUses [tool_first] = [tool_first] /\
  toolUses [text_then_tool] = [] /\
  summary_of (structured_response false [text_then_tool; tool_first]) "toolUseCount"
  = of_nat 1.
Proof.
  pose proof (X9_summary_counts false [text_then_tool] [tool_first]) as H.
  cbv zeta in H.
  destruct H as (_ & _ & _ & _ & _ & _ & _ & Add & _ & _ & _ & Single).
  pose proof (proj1 (Single tool_first _ _ _ eq_refl eq_refl eq_refl) eq_refl) as F.
  assert (N : lookup "type" [("type", VStr "text"); ("text", VStr "Let me look")]
              <> VStr "tool_use") by discriminate.
  pose proof (proj2 (Single text_then_tool _ _ _ eq_refl eq_refl eq_refl) N) as S.
  split; [exact F|]. split; [exact S|].
  pose proof (X9_summary_counts false [text_then_tool; tool_first] []) as G.
  cbv zeta in G. destruct G as (_ & _ & Count & _).
  rewrite Count. change [text_then_tool; tool_first] with ([text_then_tool] ++ [tool_first]).
  rewrite Add, S, F. reflexivity.
Defined.

(** The tool-use count looks at the first content block only. *)
Example tool_use_in_second_block_is_not_counted :
  summary_of (structured_response false [text_then_tool]) "toolUseCount" = of_nat 0 /\
  summary_of (structured_response false [tool_first]) "toolUseCount" = of_nat 1.
Proof. split; reflexivity. Qed.

Lemma systemInit_find (messages : list SDKMessage) :
  systemInit messages = find is_init messages.
Proof. reflexivity. Qed.

Lemma systemInit_first (before after : list SDKMessage) (r : SDKMessage) :
  forallb (fun m => negb (is_init m)) before = true -> is_init r = true ->
  systemInit (before ++ r :: after) = Some r.
Proof.
  rewrite systemInit_find. intros B R.
  induction before as [|b l IH]; cbn [app find].
  - now rewrite R.
  - cbn [forallb] in B. apply andb_true_iff in B as [Hb Hl].
    apply negb_true_iff in Hb. rewrite Hb. now apply IH.
Qed.

Lemma systemInit_none (messages : list SDKMessage) :
  forallb (fun m => negb (is_init m)) messages = true -> systemInit messages = None.
Proof.
  rewrite systemInit_find. intros B.
  induction messages as [|b l IH]; [reflexivity|]. cbn [find].
  cbn [forallb] in B. apply andb_true_iff in B as [Hb Hl].
  apply negb_true_iff in Hb. rewrite Hb. now apply IH.
Qed.

(** X10: [toolsAvailable] is read from the first [system] record with
    subtype [init], whatever comes after it: its [tools] when that is
    truthy, the empty list otherwise; and it is the empty list when the
    sequence has no such record ([system] records of another subtype do
    not count). *)
Theorem X10_toolsAvailable_from_first_init (debug : bool)
    (before after : list SDKMessage) (r : SDKMessage) :
  forallb (fun m => negb (is_init m)) before = true ->
  (is_init r = true ->
   summary_of (structured_response debug (before ++ r :: after)) "toolsAvailable"
   = if truthy (field r "tools") then field r "tools" else VArr []) /\
  summary_of (structured_response debug before) "toolsAvailable" = VArr [].
Proof.
  intros B. unfold summary_of. rewrite !structured_response_shape. cbv zeta. split.
  - intros R. rewrite (systemInit_first before after r B R). reflexivity.
  - rewrite (systemInit_none before B). reflexivity.
Qed.

Lemma X10_toolsAvailable_witness :
  summary_of (structured_response false scenario) "toolsAvailable"
    = VArr [VStr "Bash"; VStr "Read"] /\
  summary_of (structured_response false []) "toolsAvailable" = VArr [].
Proof.
  pose proof (X10_toolsAvailable_from_first_init false [] (skipn 1 scenario)
                (nth 0 scenario empty_turn) eq_refl) as [H N].
  exact (conj (H eq_refl) N).
Defined.

(** ** One turn of the loop *)

(** What an item with a valid prompt does, all parameters resolved. *)
Lemma attempt_valid_prompt number_to_string new_stack query (itemIndex : nat)
    operation prompt model maxTurns t projectPath outputFormat allowedTools
    settingSources additionalOptions (st : State) :
  blank prompt = false ->
  attempt number_to_string new_stack query itemIndex
    (item_of operation prompt model maxTurns t projectPath outputFormat allowedTools
             settingSources additionalOptions) st
  = match consume new_stack (truthy_bool (debug additionalOptions))
            (yields (query (queryOptions operation prompt model maxTurns projectPath
                                         allowedTools settingSources additionalOptions
                                         (fresh st))))
            (raises (query (queryOptions operation prompt model maxTurns projectPath
                                         allowedTools settingSources additionalOptions
                                         (fresh st)))) [] with
    | inl e => (inl e, cleared st t)
    | inr messages =>
        match format number_to_string outputFormat
                (truthy_bool (debug additionalOptions)) messages with
        | Some response =>
            (inr tt, recorded {| json := response; pairedItem := itemIndex |} (cleared st t))
        | None => (inr tt, cleared st t)
        end
    end.
Proof.
  intros B. unfold attempt, try_catch, bind, getNodeParameter, assign_timeout, setTimeout,
    clearTimeout, push, drain, throw, ret;
    cbn [item_of param_operation param_prompt param_model param_maxTurns param_timeout
         param_projectPath param_outputFormat param_allowedTools param_settingSources
         param_additionalOptions fst snd returnData timeout timers fresh].
  rewrite B.
  destruct (consume _ _ _ _ _) as [e|messages]; [reflexivity|].
  destruct (format _ _ _ _); reflexivity.
Qed.

Lemma attempt_blank_prompt number_to_string new_stack query (itemIndex : nat)
    operation prompt model maxTurns t projectPath outputFormat allowedTools
    settingSources additionalOptions (st : State) :
  blank prompt = true ->
  attempt number_to_string new_stack query itemIndex
    (item_of operation prompt model maxTurns t projectPath outputFormat allowedTools
             settingSources additionalOptions) st
  = (inl (prompt_required new_stack itemIndex),
     {| returnData := returnData st; timeout := t;
        timers := timers st ++ [armed st t]; fresh := S (S (fresh st)) |}).
Proof.
  intros B. unfold attempt, try_catch, bind, getNodeParameter, assign_timeout, setTimeout,
    throw, ret;
    cbn [item_of param_operation param_prompt param_model param_maxTurns param_timeout
         param_projectPath param_outputFormat param_allowedTools param_settingSources
         param_additionalOptions fst snd returnData timeout timers fresh].
  now rewrite B.
Qed.

(** X11: a blank prompt never reaches the SDK. Whatever the SDK would
    answer, the item fails with the error of the prompt check: recorded
    under [error] when the host continues on failure, and raised under the
    generic category otherwise. *)
Theorem X11_blank_prompt_never_queries number_to_string new_stack
    (query query' : QueryOptions -> Stream) (continueOnFail : bool) (itemIndex : nat)
    operation prompt model maxTurns t projectPath outputFormat allowedTools
    settingSources additionalOptions (st : State) :
  blank prompt = true ->
  let item := item_of operation prompt model maxTurns t projectPath outputFormat
                      allowedTools settingSources additionalOptions in
  iteration number_to_string new_stack query continueOnFail itemIndex item st
    = iteration number_to_string new_stack query' continueOnFail itemIndex item st /\
  (exists st', iteration number_to_string new_stack query true itemIndex item st
               = (inr tt, st') /\
               exists d, returnData st' = returnData st ++ [d] /\
                         lookup "error" (json d)
                           = VStr "Prompt is required and cannot be empty" /\
                         lookup "errorType" (json d) = VStr "execution_error") /\
  (exists e st', iteration number_to_string new_stack query false itemIndex item st
                 = (inl (ThrownError e), st') /\
                 message e
                   = "Claude Code execution failed: Prompt is required and cannot be empty" /\
                 itemIndex_of e = Some itemIndex /\
                 description_of e = Some "Prompt is required and cannot be empty").
Proof.
  intros B item.
  pose proof (fun q => attempt_blank_prompt number_to_string new_stack q itemIndex
                         operation prompt model maxTurns t projectPath outputFormat
                         allowedTools settingSources additionalOptions (started st) B) as A.
  subst item. split; [|split].
  - rewrite (iteration_on_failure _ _ query continueOnFail _ _ _ _ _ (A query)).
    rewrite (iteration_on_failure _ _ query' continueOnFail _ _ _ _ _ (A query')).
    reflexivity.
  - rewrite (iteration_on_failure _ _ query true _ _ _ _ _ (A query)).
    eexists. split; [reflexivity|]. eexists. split; [reflexivity|]. split; reflexivity.
  - rewrite (iteration_on_failure _ _ query false _ _ _ _ _ (A query)).
    eexists _, _. split; [reflexivity|]. repeat split.
Qed.

Lemma X11_blank_prompt_witness :
  iteration decimal stack_of scripted true 0 (default_item "   ") idle
  = iteration decimal stack_of unreachable true 0 (default_item "   ") idle.
Proof.
  exact (proj1 (X11_blank_prompt_never_queries decimal stack_of scripted unreachable true 0
                  "query" "   " "sonnet" 10 300 "" "structured" []
                  ["user"; "project"; "local"] no_options idle eq_refl)).
Defined.

Lemma format_known number_to_string (outputFormat : string) (debug : bool)
    (messages : list SDKMessage) :
  match format number_to_string outputFormat debug messages with
  | Some _ => known_format outputFormat = true
  | None => known_format outputFormat = false
  end.
Proof.
  unfold format, known_format.
  destruct (String.eqb outputFormat "text"), (String.eqb outputFormat "messages"),
    (String.eqb outputFormat "structured"); reflexivity.
Qed.

(** X12: an output format other than [text], [messages] and [structured]
    is not an error: the query runs, the sequence is drained, the timer is
    cleared, and the item completes without any output record, so the
    batch's output is shorter than its input. *)
Theorem X12_unknown_format_gives_no_output number_to_string new_stack query
    (continueOnFail : bool) (itemIndex : nat) operation prompt model maxTurns t
    projectPath outputFormat allowedTools settingSources additionalOptions
    (st : State) (messages : list SDKMessage) :
  blank prompt = false ->
  known_format outputFormat = false ->
  consume new_stack (truthy_bool (debug additionalOptions))
    (yields (query (queryOptions operation prompt model maxTurns projectPath allowedTools
                                 settingSources additionalOptions (fresh st))))
    (raises (query (queryOptions operation prompt model maxTurns projectPath allowedTools
                                 settingSources additionalOptions (fresh st)))) []
  = inr messages ->
  iteration number_to_string new_stack query continueOnFail itemIndex
    (item_of operation prompt model maxTurns t projectPath outputFormat allowedTools
             settingSources additionalOptions) st
  = (inr tt, cleared st t) /\
  returnData (cleared st t) = returnData st /\
  ~ pending (S (fresh st)) (cleared st t).
Proof.
  intros B K C. split; [|split; [reflexivity|]].
  - unfold iteration, bind, try_catch.
    change (assign_timeout 300 st) with (@inr thrown unit tt, started st). cbv beta iota.
    rewrite (attempt_valid_prompt _ _ _ _ _ _ _ _ _ _ _ _ _ _ _ B).
    cbn [started assign_timeout snd fresh]. rewrite C.
    pose proof (format_known number_to_string outputFormat
                  (truthy_bool (debug additionalOptions)) messages) as F.
    destruct (format _ _ _ _); [congruence|]. reflexivity.
  - unfold pending, cleared; cbn [timers].
    rewrite filter_timers_app by reflexivity. apply not_in_filter_timers.
Qed.

Lemma X12_unknown_format_witness :
  iteration decimal stack_of scripted true 0
    (item_of "query" "List files" "sonnet" 10 300 "" "json" [] [] no_options) idle
  = (inr tt, cleared idle 300) /\
  returnData (cleared idle 300) = [].
Proof.
  pose proof (X12_unknown_format_gives_no_output decimal stack_of scripted true 0
                "query" "List files" "sonnet" 10 300 "" "json" [] [] no_options
                idle scenario eq_refl eq_refl eq_refl) as H.
  exact (conj (proj1 H) (proj1 (proj2 H))).
Defined.

(** X13: a cancelled query is reported as a timeout with the item's own
    timeout. When the drain throws an error named [AbortError], the
    records consumed so far are dropped, the timer is cleared, and the item
    either yields an error record of type [timeout] or, when the host does
    not continue, raises "timed out after N seconds" with N the timeout
    configured for this item and the original message as description. *)
Theorem X13_cancellation_is_a_timeout number_to_string new_stack query (itemIndex : nat)
    operation prompt model maxTurns t projectPath outputFormat allowedTools
    settingSources additionalOptions (st : State) (error : thrown) :
  blank prompt = false ->
  consume new_stack (truthy_bool (debug additionalOptions))
    (yields (query (queryOptions operation prompt model maxTurns projectPath allowedTools
                                 settingSources additionalOptions (fresh st))))
    (raises (query (queryOptions operation prompt model maxTurns projectPath allowedTools
                                 settingSources additionalOptions (fresh st)))) []
  = inl error ->
  isTimeout error = true ->
  let item := item_of operation prompt model maxTurns t projectPath outputFormat
                      allowedTools settingSources additionalOptions in
  iteration number_to_string new_stack query true itemIndex item st
    = (inr tt, recorded (error_record number_to_string error itemIndex) (cleared st t)) /\
  lookup "errorType" (json (error_record number_to_string error itemIndex))
    = VStr "timeout" /\
  iteration number_to_string new_stack query false itemIndex item st
    = (inl (NodeOperationError new_stack (timeout_message number_to_string t) itemIndex
              (Some (errorMessage error))),
       cleared st t) /\
  ~ pending (S (fresh st)) (cleared st t).
Proof.
  intros B C T item. subst item.
  assert (A : attempt number_to_string new_stack query itemIndex
                (item_of operation prompt model maxTurns t projectPath outputFormat
                         allowedTools settingSources additionalOptions) (started st)
              = (inl error, cleared st t)).
  { rewrite (attempt_valid_prompt _ _ _ _ _ _ _ _ _ _ _ _ _ _ _ B).
    cbn [started assign_timeout snd fresh]. rewrite C. reflexivity. }
  split; [exact (iteration_on_failure _ _ query true _ _ _ _ _ A)|].
  split; [cbn; now rewrite T|].
  split.
  - rewrite (iteration_on_failure _ _ query false _ _ _ _ _ A).
    unfold raised, userFriendlyMessage. rewrite T. reflexivity.
  - unfold pending, cleared; cbn [timers].
    rewrite filter_timers_app by reflexivity. apply not_in_filter_timers.
Qed.

Lemma X13_cancellation_witness :
  iteration decimal stack_of cancelled false 0
    (item_of "query" "List files" "sonnet" 10 45 "" "text" [] [] no_options) idle
  = (inl (NodeOperationError stack_of
            "Operation timed out after 45 seconds. Consider increasing the timeout in Additional Options."
            0 (Some "The operation was aborted")),
     cleared idle 45).
Proof.
  exact (proj1 (proj2 (proj2
           (X13_cancellation_is_a_timeout decimal stack_of cancelled 0 "query" "List files"
              "sonnet" 10 45 "" "text" [] [] no_options idle
              (plain_error "AbortError" "The operation was aborted")
              eq_refl eq_refl eq_refl)))).
Defined.

(** ** The batch *)

Ltac unfold_attempt :=
  unfold attempt, try_catch, bind, getNodeParameter, assign_timeout, setTimeout,
    clearTimeout, push, drain, throw, ret;
  cbn [param_operation param_prompt param_model param_maxTurns param_timeout
       param_projectPath param_outputFormat param_allowedTools param_settingSources
       param_additionalOptions].

(** An attempt that completes has pushed at most one record, paired with
    the item, and exactly one when the format is known. *)
Lemma attempt_success_returnData number_to_string new_stack query (itemIndex : nat)
    (item : Item) (st st1 : State) :
  attempt number_to_string new_stack query itemIndex item st = (inr tt, st1) ->
  exists l, returnData st1 = returnData st ++ l /\
            (List.length l <= 1)%nat /\
            Forall (fun d => pairedItem d = itemIndex) l /\
            (asks_known_format item = true -> List.length l = 1%nat).
Proof.
  destruct item as [o p m mt t pp f tools sources opts].
  unfold asks_known_format; unfold_attempt.
  destruct o; [discriminate|]. destruct p; [discriminate|].
  destruct m; [discriminate|]. destruct mt; [discriminate|].
  destruct t; [discriminate|]. destruct pp; [discriminate|].
  destruct f as [|f]; [discriminate|]. destruct tools; [discriminate|].
  destruct sources; [discriminate|]. destruct opts as [|opts]; [discriminate|].
  cbn [fst snd]. destruct (blank _); [discriminate|].
  destruct (consume _ _ _ _ _) as [e|messages]; cbn [fst snd]; [discriminate|].
  pose proof (format_known number_to_string f (truthy_bool (debug opts)) messages) as K.
  destruct (format _ _ _ _) as [response|]; intros [= <-]; cbn [returnData].
  - eexists. split; [reflexivity|]. repeat split; auto.
  - exists []. rewrite app_nil_r. repeat split; auto. congruence.
Qed.

Lemma iteration_on_success number_to_string new_stack query continueOnFail
    (itemIndex : nat) (item : Item) (st st1 : State) :
  attempt number_to_string new_stack query itemIndex item (started st) = (inr tt, st1) ->
  iteration number_to_string new_stack query continueOnFail itemIndex item st
  = (inr tt, st1).
Proof.
  intros H. unfold iteration, bind, try_catch.
  change (assign_timeout 300 st) with (@inr thrown unit tt, started st).
  cbv beta iota. now rewrite H.
Qed.

Lemma iteration_continuing number_to_string new_stack query (itemIndex : nat)
    (item : Item) (st : State) :
  exists st' l,
    iteration number_to_string new_stack query true itemIndex item st = (inr tt, st') /\
    returnData st' = returnData st ++ l /\
    (List.length l <= 1)%nat /\
    Forall (fun d => pairedItem d = itemIndex) l /\
    (asks_known_format item = true -> List.length l = 1%nat).
Proof.
  destruct (attempt number_to_string new_stack query itemIndex item (started st))
    as [[e|[]] st1] eqn:A.
  - rewrite (iteration_on_failure _ _ _ true _ _ _ _ _ A).
    pose proof (attempt_failure_returnData _ _ _ _ _ _ _ _ A) as R.
    eexists _, [_]. split; [reflexivity|]. cbn [recorded returnData]. rewrite R.
    repeat split; auto.
  - rewrite (iteration_on_success _ _ _ true _ _ _ _ A).
    destruct (attempt_success_returnData _ _ _ _ _ _ _ A) as (l & R & L & P & K).
    exists st1, l. repeat split; auto.
Qed.

Lemma loop_continuing number_to_string new_stack query (items : list Item)
    (itemIndex : nat) (st : State) :
  exists st' outs,
    loop number_to_string new_stack query true items itemIndex st = (inr tt, st') /\
    returnData st' = returnData st ++ outs /\
    (List.length outs <= List.length items)%nat /\
    Forall (fun d => (itemIndex <= pairedItem d < itemIndex + List.length items)%nat) outs /\
    (forallb asks_known_format items = true ->
     map pairedItem outs = seq itemIndex (List.length items)).
Proof.
  revert itemIndex st. induction items as [|item items IH]; intros itemIndex st.
  - exists st, []. cbn. rewrite app_nil_r. repeat split; auto.
  - destruct (iteration_continuing number_to_string new_stack query itemIndex item st)
      as (st1 & l & I & R & L & P & K).
    destruct (IH (S itemIndex) st1) as (st2 & outs & I' & R' & L' & P' & K').
    exists st2, (l ++ outs). cbn [loop]. unfold bind at 1. rewrite I.
    split; [exact I'|]. split; [now rewrite R', R, app_assoc|].
    split; [rewrite length_app; cbn [List.length]; lia|]. split.
    + apply Forall_app. split.
      * eapply Forall_impl; [|exact P]. cbn. intros d ->. cbn [List.length]. lia.
      * eapply Forall_impl; [|exact P']. cbn [List.length]. intros d. cbn. lia.
    + cbn [forallb]. intros H. apply andb_true_iff in H as [H1 H2].
      specialize (K H1). specialize (K' H2). rewrite map_app, K'. cbn [List.length seq].
      destruct l as [|d [|d' l']]; cbn in K; try discriminate.
      apply Forall_inv in P. cbn. now rewrite P.
Qed.

(** X14: when the host continues on failure, [execute] never throws: it
    returns one list with at most one record per item, each paired with an
    item of the batch; and when every item asks for a known format there is
    exactly one record per item, in item order, whether the item succeeded
    or failed. *)
Theorem X14_continuing_batch_answers_every_item number_to_string new_stack query
    (items : list Item) (st : State) :
  exists outs,
    fst (execute number_to_string new_stack query true items st) = inr [outs] /\
    (List.length outs <= List.length items)%nat /\
    Forall (fun d => (pairedItem d < List.length items)%nat) outs /\
    (forallb asks_known_format items = true ->
     map pairedItem outs = seq 0 (List.length items)).
Proof.
  unfold execute.
  destruct (loop_continuing number_to_string new_stack query items 0
              {| returnData := []; timeout := timeout st; timers := timers st;
                 fresh := fresh st |}) as (st' & outs & L & R & N & P & K).
  rewrite L. cbn [returnData app] in R. rewrite R. exists outs.
  split; [reflexivity|]. split; [exact N|]. split; [|exact K].
  eapply Forall_impl; [|exact P]. cbn. intros d. lia.
Qed.

Lemma X14_continuing_batch_witness :
  exists outs,
    fst (execute decimal stack_of scripted true
           [default_item ""; default_item "List files"; default_item " "] idle)
      = inr [outs] /\
    map pairedItem outs = [0; 1; 2]%nat.
Proof.
  destruct (X14_continuing_batch_answers_every_item decimal stack_of scripted
              [default_item ""; default_item "List files"; default_item " "] idle)
    as (outs & E & _ & _ & K).
  exists outs. split; [exact E|]. exact (K eq_refl).
Defined.

Lemma loop_aborting number_to_string new_stack query (items : list Item)
    (itemIndex : nat) (st : State) :
  match loop number_to_string new_stack query false items itemIndex st with
  | (inl e, st') =>
      exists i error t,
        e = raised number_to_string new_stack t error i /\
        (itemIndex <= i < itemIndex + List.length items)%nat
  | (inr u, st') =>
      loop number_to_string new_stack query true items itemIndex st = (inr u, st')
  end.
Proof.
  revert itemIndex st. induction items as [|item items IH]; intros itemIndex st.
  - reflexivity.
  - cbn [loop].
    destruct (attempt number_to_string new_stack query itemIndex item (started st))
      as [[e|[]] st1] eqn:A.
    + unfold bind at 1. rewrite (iteration_on_failure _ _ _ false _ _ _ _ _ A).
      exists itemIndex, e, (timeout st1). split; [reflexivity|]. cbn [List.length]. lia.
    + unfold bind at 1. rewrite (iteration_on_success _ _ _ false _ _ _ _ A).
      specialize (IH (S itemIndex) st1).
      assert (T : loop number_to_string new_stack query true (item :: items) itemIndex st
                  = loop number_to_string new_stack query true items (S itemIndex) st1).
      { cbn [loop]. unfold bind at 1.
        now rewrite (iteration_on_success _ _ _ true _ _ _ _ A). }
      cbn [loop] in T. rewrite T.
      destruct (loop number_to_string new_stack query false items (S itemIndex) st1)
        as [[e|u] st2].
      * destruct IH as (i & error & t & E & R). exists i, error, t.
        split; [exact E|]. cbn [List.length]. lia.
      * exact IH.
Qed.

(** X15: when the host does not continue on failure, a failing batch ends
    with a [NodeOperationError] that names an item of the batch and has a
    description, and returns no output at all, not even that of the items
    before the failing one; a batch that does not fail runs exactly as it
    would with the host continuing on failure. *)
Theorem X15_aborting_batch number_to_string new_stack query (items : list Item)
    (st : State) :
  (forall e,
     fst (execute number_to_string new_stack query false items st) = inl e ->
     exists err i,
       e = ThrownError err /\ name err = "NodeOperationError" /\
       itemIndex_of err = Some i /\ (i < List.length items)%nat /\
       description_of err <> None) /\
  (forall outs,
     fst (execute number_to_string new_stack query false items st) = inr outs ->
     execute number_to_string new_stack query true items st
     = execute number_to_string new_stack query false items st).
Proof.
  unfold execute.
  pose proof (loop_aborting number_to_string new_stack query items 0
                {| returnData := []; timeout := timeout st; timers := timers st;
                   fresh := fresh st |}) as L.
  destruct (loop number_to_string new_stack query false items 0 _) as [[e|u] st'].
  - split; [|discriminate]. intros e' [= <-].
    destruct L as (i & error & t & -> & R).
    eexists _, i. split; [reflexivity|]. repeat split; [lia|discriminate].
  - split; [discriminate|]. intros outs _. now rewrite L.
Qed.

Lemma X15_aborting_batch_witness :
  (exists err,
     fst (execute decimal stack_of scripted false
            [default_item "List files"; default_item ""; default_item "Next"] idle)
       = inl (ThrownError err) /\
     itemIndex_of err = Some 1%nat) /\
  execute decimal stack_of scripted true [default_item "List files"] idle
  = execute decimal stack_of scripted false [default_item "List files"] idle.
Proof.
  split.
  - destruct (proj1 (X15_aborting_batch decimal stack_of scripted
                       [default_item "List files"; default_item ""; default_item "Next"]
                       idle) _ eq_refl) as (err & i & E & _ & I & _ & _).
    exists err. split; [now rewrite <- E|].
    injection E as <-. reflexivity.
  - apply (proj2 (X15_aborting_batch decimal stack_of scripted
                    [default_item "List files"] idle) _ eq_refl).
Defined.

(** ** Pending timers across a batch *)

Lemma filter_fresh_timers (st : State) (t : Q) :
  fresh_ids st ->
  filter (fun x => negb (timeoutId x =? S (fresh st))%nat) (timers st ++ [armed st t])
  = timers st.
Proof.
  intros F. rewrite filter_timers_app by reflexivity.
  apply forallb_filter_id. apply forallb_forall. intros x Hx.
  apply negb_true_iff, Nat.eqb_neq. specialize (F x Hx). lia.
Qed.

Lemma attempt_timers number_to_string new_stack query (itemIndex : nat) (item : Item)
    (st : State) :
  fresh_ids st ->
  let st1 := snd (attempt number_to_string new_stack query itemIndex item st) in
  timers st1
  = (if fails_prompt_check item then timers st ++ [armed st (timeout_of item)]
     else timers st) /\
  fresh_ids st1.
Proof.
  intros F. destruct item as [o p m mt t pp f tools sources opts].
  assert (F2 : forall t0 l,
             (forall x, In x l -> In x (timers st ++ [armed st t0])) ->
             forall x, In x l -> (timeoutId x <= S (S (fresh st)))%nat).
  { intros t0 l H x Hx. apply H, in_app_or in Hx as [Hx|[<-|[]]].
    - specialize (F x Hx). lia.
    - cbn. lia. }
  unfold fails_prompt_check, resolves, timeout_of, fresh_ids; unfold_attempt.
  destruct o; [split; [reflexivity|exact F]|].
  destruct p as [|p]; [split; [reflexivity|exact F]|].
  destruct m; [split; [reflexivity|exact F]|].
  destruct mt; [split; [reflexivity|exact F]|].
  destruct t as [|t]; [split; [reflexivity|exact F]|].
  destruct pp; [split; [reflexivity|exact F]|].
  destruct f; [split; [reflexivity|exact F]|].
  destruct tools; [split; [reflexivity|exact F]|].
  destruct sources; [split; [reflexivity|exact F]|].
  destruct opts; [split; [reflexivity|exact F]|].
  cbn [fst snd andb]. destruct (blank p).
  - cbn [snd timers fresh]. split; [reflexivity|]. apply (F2 t). auto.
  - assert (C : filter (fun x => negb (timeoutId x =? S (fresh st))%nat)
                       (timers st ++ [armed st t]) = timers st)
      by now apply filter_fresh_timers.
    unfold armed in C.
    destruct (consume _ _ _ _ _); cbn [fst snd timers fresh returnData timeout];
      [|destruct (format _ _ _ _); cbn [fst snd timers fresh]];
      rewrite C; (split; [reflexivity|]); intros x Hx; specialize (F x Hx); lia.
Qed.

Lemma iteration_timers number_to_string new_stack query continueOnFail (itemIndex : nat)
    (item : Item) (st : State) :
  fresh_ids st ->
  let st' := snd (iteration number_to_string new_stack query continueOnFail itemIndex
                    item st) in
  timers st'
  = (if fails_prompt_check item then timers st ++ [armed st (timeout_of item)]
     else timers st) /\
  fresh_ids st'.
Proof.
  intros F.
  assert (F' : fresh_ids (started st)) by exact F.
  pose proof (attempt_timers number_to_string new_stack query itemIndex item
                (started st) F') as T. cbv zeta in T.
  destruct (attempt number_to_string new_stack query itemIndex item (started st))
    as [[e|[]] st1] eqn:A; cbn [snd] in T.
  - cbv zeta. rewrite (iteration_on_failure _ _ _ continueOnFail _ _ _ _ _ A).
    destruct continueOnFail; exact T.
  - cbv zeta. rewrite (iteration_on_success _ _ _ continueOnFail _ _ _ _ A). exact T.
Qed.

Lemma loop_timers number_to_string new_stack query continueOnFail (items : list Item)
    (itemIndex : nat) (st : State) :
  fresh_ids st ->
  forallb (fun item => negb (fails_prompt_check item)) items = true ->
  timers (snd (loop number_to_string new_stack query continueOnFail items itemIndex st))
  = timers st.
Proof.
  revert itemIndex st. induction items as [|item items IH]; intros itemIndex st F V.
  - reflexivity.
  - cbn [forallb] in V. apply andb_true_iff in V as [V1 V2].
    apply negb_true_iff in V1.
    pose proof (iteration_timers number_to_string new_stack query continueOnFail
                  itemIndex item st F) as T. cbv zeta in T. rewrite V1 in T.
    cbn [loop]. unfold bind at 1.
    destruct (iteration number_to_string new_stack query continueOnFail itemIndex item st)
      as [[e|u] st1]; cbn [snd] in T |- *.
    + exact (proj1 T).
    + rewrite (IH _ _ (proj2 T) V2). exact (proj1 T).
Qed.

(** X16: the blank prompt is the only leak. Starting from pending timers
    whose identities are not yet to be given out, a turn of the loop
    leaves the pending timers exactly as they were, whether the item
    succeeds, fails in the SDK or fails to resolve a parameter, unless the
    item gets as far as the prompt check and fails it, in which case its
    own timer is added; so a batch without such an item ends with the
    timers it started with, under either policy of the host. *)
Theorem X16_only_a_blank_prompt_leaves_a_timer number_to_string new_stack query
    (continueOnFail : bool) (itemIndex : nat) (item : Item) (items : list Item)
    (st : State) :
  fresh_ids st ->
  timers (snd (iteration number_to_string new_stack query continueOnFail itemIndex
                 item st))
  = (if fails_prompt_check item then timers st ++ [armed st (timeout_of item)]
     else timers st) /\
  (forallb (fun item => negb (fails_prompt_check item)) items = true ->
   timers (snd (execute number_to_string new_stack query continueOnFail items st))
   = timers st).
Proof.
  intros F. split.
  - apply (iteration_timers number_to_string new_stack query continueOnFail itemIndex
             item st F).
  - intros V. unfold execute.
    pose proof (loop_timers number_to_string new_stack query continueOnFail items 0
                  {| returnData := []; timeout := timeout st; timers := timers st;
                     fresh := fresh st |} F V) as L.
    destruct (loop _ _ _ _ _ _ _) as [[e|u] st']; exact L.
Qed.

Lemma idle_fresh_ids : fresh_ids idle.
Proof. intros x []. Defined.

Lemma X16_timers_witness :
  timers (snd (execute decimal stack_of cancelled true
                 [default_item "List files"; default_item "Next"] idle)) = [] /\
  timers (snd (iteration decimal stack_of scripted true 0 (default_item " ") idle))
  = [armed idle 300].
Proof.
  pose proof (X16_only_a_blank_prompt_leaves_a_timer decimal stack_of cancelled true 0
                (default_item "List files")
                [default_item "List files"; default_item "Next"] idle idle_fresh_ids) as C.
  pose proof (X16_only_a_blank_prompt_leaves_a_timer decimal stack_of scripted true 0
                (default_item " ") [] idle idle_fresh_ids) as B.
  exact (conj (proj2 C eq_refl) (proj1 B)).
Defined.

(** ** Descriptions *)

Lemma prefix_app (s t : string) : String.prefix s (s ++ t) = true.
Proof.
  induction s as [|c s IH]; simpl; [now destruct t|].
  destruct (ascii_dec c c); [exact IH|congruence].
Qed.

(** X17: whatever the category, the description of the raised error
    starts with the original error message, so the translation never hides
    what went wrong; for a cancellation and for the generic category the
    description is the original message itself. *)
Theorem X17_description_keeps_the_message number_to_string (timeout : Q) (error : thrown) :
  let description := snd (userFriendlyMessage number_to_string timeout error) in
  String.prefix (errorMessage error) description = true /\
  includes description (errorMessage error) = true /\
  (categorize error = TimedOut \/ categorize error = ExecutionFailed ->
   description = errorMessage error).
Proof.
  cbv zeta. rewrite userFriendlyMessage_diagnostic.
  assert (P : forall s, String.prefix s s = true).
  { induction s as [|c s IH]; simpl; [reflexivity|].
    destruct (ascii_dec c c); [exact IH|congruence]. }
  assert (Q : String.prefix (errorMessage error)
                (snd (diagnostic number_to_string timeout error (categorize error)))
              = true).
  { destruct (categorize error); cbn [diagnostic snd];
      unfold cli_description, auth_description, permission_description;
      try apply prefix_app; apply P. }
  split; [exact Q|]. split; [now apply includes_self_prefix|].
  intros [E|E]; rewrite E; reflexivity.
Qed.

Lemma X17_description_witness :
  snd (userFriendlyMessage decimal 300 (plain_error "AbortError" "The operation was aborted"))
  = "The operation was aborted".
Proof.
  exact (proj2 (proj2 (X17_description_keeps_the_message decimal 300
                         (plain_error "AbortError" "The operation was aborted")))
               (or_introl eq_refl)).
Defined.

(** ** Agreement between the formats *)

Lemma structured_response_result (debug : bool) (messages : list SDKMessage) :
  lookup "result" (structured_response debug messages)
  = if truthy (ofield (resultMessage messages) "result")
    then ofield (resultMessage messages) "result" else VUndefined.
Proof.
  rewrite structured_response_shape. cbv zeta. unfold optional.
  destruct (truthy (ofield (resultMessage messages) "result")),
    (truthy (ofield (resultMessage messages) "error")),
    (is_undefined (ofield (resultMessage messages) "duration_ms")), debug; reflexivity.
Qed.

(** X18: the three formats of one sequence agree. The text output has a
    [duration_ms] exactly when the structured output has a [metrics] block,
    and a truthy duration is the same in both; a result text shown by the
    structured output is the text output's [result]; and the messages
    format counts every record the structured summary sorts into user,
    assistant and other records. *)
Theorem X18_formats_agree number_to_string (debug : bool) (messages : list SDKMessage) :
  let text := text_response number_to_string messages in
  let structured := structured_response debug messages in
  has_key "duration_ms" text = has_key "metrics" structured /\
  (truthy (lookup "duration_ms" text) = true ->
   oprop (lookup "metrics" structured) "duration_ms" = lookup "duration_ms" text) /\
  (forall s, lookup "result" structured = VStr s -> lookup "result" text = VStr s) /\
  lookup "messageCount" (messages_response messages)
  = of_nat (List.length (userMessages messages)
            + List.length (assistantMessages messages)
            + List.length (otherMessages messages)).
Proof.
  cbv zeta. split; [|split; [|split]].
  - rewrite text_response_shape, structured_response_shape. cbv zeta. unfold optional.
    destruct (resultMessage messages) as [r|]; simpl ofield;
      [destruct (is_undefined (field r "duration_ms")),
         (is_undefined (field r "total_cost_usd")),
         (truthy (field r "result")), (truthy (field r "error"))|];
      destruct debug; reflexivity.
  - rewrite text_response_shape, structured_response_shape. cbv zeta. unfold optional.
    destruct (resultMessage messages) as [r|]; simpl ofield; [|discriminate].
    destruct (field r "duration_ms") eqn:D; try discriminate;
      destruct (is_undefined (field r "total_cost_usd")),
        (truthy (field r "result")), (truthy (field r "error")), debug;
      cbn; unfold or; rewrite ?D; cbn; intros T; try discriminate;
      try rewrite T; reflexivity.
  - intros s. rewrite structured_response_result, text_response_result.
    destruct (truthy (ofield (resultMessage messages) "result")) eqn:T; [|discriminate].
    intros E. unfold or. rewrite T; cbv iota. rewrite T, E. reflexivity.
  - rewrite <- partition_by_type. reflexivity.
Qed.

Lemma X18_formats_agree_witness :
  oprop (lookup "metrics" (structured_response false scenario)) "duration_ms" = VNum 120 /\
  lookup "result" (text_response decimal scenario) = VStr "done".
Proof.
  pose proof (X18_formats_agree decimal false scenario) as H. cbv zeta in H.
  split.
  - exact (proj1 (proj2 H) eq_refl).
  - exact (proj1 (proj2 (proj2 H)) "done" eq_refl).
Defined.
